(** * GPMS, [utils/io_helpers.py]: the directory CSV loader [read_all_csvs]

    A shallow embedding of [read_all_csvs] and of the library calls it makes
    ([os.path.isdir], [os.path.join], [glob.glob], [os.path.basename],
    [os.path.splitext], [pandas.read_csv]), followed by the properties of the
    loader.

    Conventions.
    - Paths are POSIX paths ([posixpath]): the separator is [/], matching is
      case-sensitive ([os.path.normcase] is the identity).
    - Python [str] is [string]; indices returned by [str.rfind] are [Z]
      (with [-1] for "not found"), slices take a non-negative bound.
    - The file system and pandas are a [World]: a record of the observations
      the loader makes of them.
    - Python exceptions are values of [PyExc]; a call either returns or
      raises, and every library call is recorded in a trace of events. *)

From Stdlib Require Import String Ascii ZArith.
From stdpp Require Import gmap strings list fin_maps.

Local Open Scope Z_scope.
Local Open Scope string_scope.

(** ** Python string primitives *)

Module Str.

(** [s[:n]] for [0 <= n]. *)
Fixpoint take (n : nat) (s : string) : string :=
  match n, s with
  | O, _ => EmptyString
  | S _, EmptyString => EmptyString
  | S n', String a s' => String a (take n' s')
  end.

(** [s[n:]] for [0 <= n]. *)
Fixpoint drop (n : nat) (s : string) : string :=
  match n, s with
  | O, _ => s
  | S _, EmptyString => EmptyString
  | S n', String _ s' => drop n' s'
  end.

(** [s.rfind(c)] for a one-character [c]: the highest index of [c] in [s],
    or [-1]. *)
Fixpoint rfind (c : ascii) (s : string) : Z :=
  match s with
  | EmptyString => -1
  | String a s' =>
      let r := rfind c s' in
      if (0 <=? r)%Z then r + 1 else if Ascii.eqb a c then 0 else -1
  end.

(** [c in s]. *)
Fixpoint contains (c : ascii) (s : string) : bool :=
  match s with
  | EmptyString => false
  | String a s' => Ascii.eqb a c || contains c s'
  end.

(** [s.startswith(c)] for a one-character [c]. *)
Definition startswith (s : string) (c : ascii) : bool :=
  match s with
  | EmptyString => false
  | String a _ => Ascii.eqb a c
  end.

(** [s.endswith(suf)]. *)
Definition endswith (s suf : string) : bool :=
  (String.length suf <=? String.length s)%nat
  && String.eqb (drop (String.length s - String.length suf) s) suf.

(** [s == c * len(s)]: every character of [s] is [c]. *)
Fixpoint all_eq (c : ascii) (s : string) : bool :=
  match s with
  | EmptyString => true
  | String a s' => Ascii.eqb a c && all_eq c s'
  end.

(** [s.rstrip(c)] for a one-character [c]. *)
Fixpoint rstrip (c : ascii) (s : string) : string :=
  match s with
  | EmptyString => EmptyString
  | String a s' =>
      match rstrip c s' with
      | EmptyString => if Ascii.eqb a c then EmptyString else String a EmptyString
      | r => String a r
      end
  end.

(** [s[i:i+1]] compared with a one-character string: the character at
    index [i], if any. *)
Definition char_at (s : string) (i : Z) : option ascii :=
  if (i <? 0)%Z then None else String.get (Z.to_nat i) s.

End Str.

(** ** [posixpath] *)

Module PosixPath.

Definition sep : ascii := "/"%char.
Definition extsep : ascii := "."%char.

(** [os.path.join(a, b)] with one component [b]. *)
Definition join (a b : string) : string :=
  if Str.startswith b sep then b
  else if String.eqb a "" || Str.endswith a "/" then a +:+ b
  else a +:+ "/" +:+ b.

(** [os.path.split(p)]. *)
Definition split (p : string) : string * string :=
  let i := Z.to_nat (Str.rfind sep p + 1) in
  let head := Str.take i p in
  let tail := Str.drop i p in
  if negb (String.eqb head "") && negb (Str.all_eq sep head)
  then (Str.rstrip sep head, tail)
  else (head, tail).

(** [os.path.basename(p)]. *)
Definition basename (p : string) : string :=
  let i := Z.to_nat (Str.rfind sep p + 1) in
  Str.drop i p.

(** The [while filenameIndex < dotIndex] loop of [genericpath._splitext]:
    [true] when it meets a character other than [extsep] (the function
    then returns the split at [dotIndex]), [false] when it runs to the
    end.  At most [dotIndex - filenameIndex] iterations are made. *)
Fixpoint splitext_scan (fuel : nat) (p : string) (filenameIndex dotIndex : Z) : bool :=
  match fuel with
  | O => false
  | S fuel' =>
      if (filenameIndex <? dotIndex)%Z then
        match Str.char_at p filenameIndex with
        | Some c => if Ascii.eqb c extsep
                    then splitext_scan fuel' p (filenameIndex + 1) dotIndex
                    else true
        | None => true
        end
      else false
  end.

(** [os.path.splitext(p)]. *)
Definition splitext (p : string) : string * string :=
  let sepIndex := Str.rfind sep p in
  let dotIndex := Str.rfind extsep p in
  if (sepIndex <? dotIndex)%Z then
    let filenameIndex := sepIndex + 1 in
    if splitext_scan (Z.to_nat (dotIndex - filenameIndex)) p filenameIndex dotIndex
    then (Str.take (Z.to_nat dotIndex) p, Str.drop (Z.to_nat dotIndex) p)
    else (p, "")
  else (p, "").

End PosixPath.

(** ** Python exceptions and results *)

(** An exception instance: its class, the text [str(e)] gives, and
    [__cause__] (set by [raise ... from e]).  Every value stands for an
    instance of a subclass of [Exception]; these are the ones the loader's
    [except Exception] clause catches. *)
Inductive PyExc : Type :=
| Exc (cls : string) (msg : string)
| ExcFrom (cls : string) (msg : string) (cause : PyExc).

Definition exc_class (e : PyExc) : string :=
  match e with Exc c _ | ExcFrom c _ _ => c end.
Definition exc_str (e : PyExc) : string :=
  match e with Exc _ m | ExcFrom _ m _ => m end.
Definition exc_cause (e : PyExc) : option PyExc :=
  match e with Exc _ _ => None | ExcFrom _ _ c => Some c end.

Definition FileNotFoundError (msg : string) : PyExc := Exc "FileNotFoundError" msg.
Definition ValueError (msg : string) : PyExc := Exc "ValueError" msg.
(** [RuntimeError(msg)] raised [from e]. *)
Definition RuntimeError_from (msg : string) (e : PyExc) : PyExc :=
  ExcFrom "RuntimeError" msg e.

(** What a call does: it returns a value or raises. *)
Inductive outcome (A : Type) : Type :=
| Returned (a : A)
| Raised (e : PyExc).
Arguments Returned {A} a.
Arguments Raised {A} e.

(** ** The world outside the loader *)

(** The observations [read_all_csvs] makes of the file system and of pandas.
    - [os_path_isdir p]: [os.path.isdir(p)].
    - [os_scandir d]: the names [os.scandir(d)] yields, in enumeration
      order, files and directories alike; [glob] turns an [OSError] there
      into the empty listing.
    - [glob_dirs d]: for a [d] that contains one of the magic characters
      [*?[], the directories [glob] expands [d] to (its recursive call on
      the directory part of a pattern).
    - [pd_read_csv p]: [pandas.read_csv(p)], a table or the exception
      raised. *)
Record World (Table : Type) : Type := {
  os_path_isdir : string -> bool;
  os_scandir : string -> list string;
  glob_dirs : string -> list string;
  pd_read_csv : string -> outcome Table
}.
Arguments os_path_isdir {Table} w p.
Arguments os_scandir {Table} w d.
Arguments glob_dirs {Table} w d.
Arguments pd_read_csv {Table} w p.

(** The library calls made, in order. *)
Inductive event : Type :=
| EvIsDir (path : string)
| EvGlob (pattern : string)
| EvReadCsv (path : string).

(** Computations: a trace of calls is threaded through, and a computation
    returns or raises. *)
Definition M (A : Type) : Type := list event -> list event * outcome A.

Definition m_ret {A} (a : A) : M A := fun tr => (tr, Returned a).

Definition m_bind {A B} (m : M A) (k : A -> M B) : M B :=
  fun tr =>
    match m tr with
    | (tr', Returned a) => k a tr'
    | (tr', Raised e) => (tr', Raised e)
    end.

(** [raise e]. *)
Definition raise {A} (e : PyExc) : M A := fun tr => (tr, Raised e).

(** [try: body / except Exception as e: handler e]. *)
Definition try_except {A} (body : M A) (handler : PyExc -> M A) : M A :=
  fun tr =>
    match body tr with
    | (tr', Returned a) => (tr', Returned a)
    | (tr', Raised e) => handler e tr'
    end.

#[global] Instance M_ret : MRet M := @m_ret.
#[global] Instance M_bind : MBind M := fun A B k m => m_bind m k.

(** ** [glob] *)

Module Glob.

(** [glob.has_magic(s)]: [s] contains one of [*], [?], [[]. *)
Definition has_magic (s : string) : bool :=
  Str.contains "*"%char s || Str.contains "?"%char s || Str.contains "["%char s.

(** [glob._ishidden(name)]. *)
Definition ishidden (name : string) : bool := Str.startswith name "."%char.

(** [fnmatch] of a name against the pattern [*.csv]: the pattern compiles
    to the regular expression [(?s:.*\.csv)\Z], matched from the start of
    the name, so a name matches when it ends with the four characters
    [.csv]. *)
Definition fnmatch_star_csv (name : string) : bool := Str.endswith name ".csv".

Section InWorld.
Context {Table : Type} (w : World Table).

(** [glob._glob1(dirname, "*.csv", dironly=False)]: the listing of
    [dirname], without the hidden names (the pattern does not start with
    a dot), filtered by the pattern. *)
Definition glob1_star_csv (dirname : string) : list string :=
  let names := os_scandir w dirname in
  let names := List.filter (fun x => negb (ishidden x)) names in
  List.filter fnmatch_star_csv names.

(** [glob.glob(pathname)] for a [pathname] whose last component is the
    pattern [*.csv] (see [glob_pattern_basename]). *)
Definition glob (pathname : string) : list string :=
  let '(dirname, _basename) := PosixPath.split pathname in
  if String.eqb dirname "" then glob1_star_csv "."
  else
    let dirs :=
      if negb (String.eqb dirname pathname) && has_magic dirname
      then glob_dirs w dirname
      else [dirname] in
    List.flat_map
      (fun dirname => List.map (PosixPath.join dirname) (glob1_star_csv dirname))
      dirs.
End InWorld.

End Glob.

(** ** [utils/io_helpers.py] *)

Section Loader.
Context {Table : Type} (w : World Table).

Definition isdir (path : string) : M bool :=
  fun tr => ((tr ++ [EvIsDir path])%list, Returned (os_path_isdir w path)).

Definition glob_glob (pathname : string) : M (list string) :=
  fun tr => ((tr ++ [EvGlob pathname])%list, Returned (Glob.glob w pathname)).

Definition read_csv (path : string) : M Table :=
  fun tr => ((tr ++ [EvReadCsv path])%list, pd_read_csv w path).

(** The key of a path: [filename = os.path.basename(path)] and
    [key, _ext = os.path.splitext(filename)]. *)
Definition key_of (path : string) : string :=
  let filename := PosixPath.basename path in
  let '(key, _ext) := PosixPath.splitext filename in
  key.

(** The body of [for path in csv_paths], on the dictionary built so far. *)
Fixpoint for_path_in (csv_paths : list string) (dataframes : gmap string Table)
  : M (gmap string Table) :=
  match csv_paths with
  | [] => mret dataframes
  | path :: rest =>
      let filename := PosixPath.basename path in
      let '(key, _ext) := PosixPath.splitext filename in
      df ← try_except (read_csv path)
             (fun e => raise (RuntimeError_from
                                ("Erro ao ler '" +:+ path +:+ "': " +:+ exc_str e) e));
      for_path_in rest (<[key := df]> dataframes)
  end.

Definition read_all_csvs (folder_path : string) : M (gmap string Table) :=
  is_dir ← isdir folder_path;
  if negb is_dir then
    raise (FileNotFoundError ("Pasta não encontrada: '" +:+ folder_path +:+ "'"))
  else
    let csv_pattern := PosixPath.join folder_path "*.csv" in
    csv_paths ← glob_glob csv_pattern;
    match csv_paths with
    | [] => raise (ValueError ("Nenhum arquivo .csv encontrado em: '" +:+ folder_path +:+ "'"))
    | _ => for_path_in csv_paths ∅
    end.

(** A call from the outside: the trace starts empty. *)
Definition call (folder_path : string) : list event * outcome (gmap string Table) :=
  read_all_csvs folder_path [].

End Loader.

(** ** Vocabulary of the properties *)

(** The directory whose listing [glob] reads for [folder_path]: the head of
    the pattern [os.path.join(folder_path, "*.csv")], which is [folder_path]
    without its trailing separators. *)
Definition dir_of (folder_path : string) : string :=
  fst (PosixPath.split (PosixPath.join folder_path "*.csv")).

(** A name with everything after and including its final [.] removed (a name
    without a dot is left as it is). *)
Fixpoint strip_final_dot (name : string) : string :=
  match name with
  | EmptyString => EmptyString
  | String a rest =>
      if Str.contains "."%char rest then String a (strip_final_dot rest)
      else if Ascii.eqb a "."%char then EmptyString
      else String a rest
  end.

(** The names of a listing that end in [.csv] and do not start with a dot. *)
Definition visible_csv (names : list string) : list string :=
  List.filter (fun n => Str.endswith n ".csv" && negb (Str.startswith n "."%char)) names.

(** A file name as a directory listing gives it: not empty, no separator. *)
Definition valid_name (n : string) : bool :=
  negb (String.eqb n "") && negb (Str.contains PosixPath.sep n).

(** What POSIX guarantees of the observations: the empty path is not a
    directory, and a listing holds valid names, each once. *)
Record posix_world {Table : Type} (w : World Table) : Prop := {
  isdir_empty : os_path_isdir w "" = false;
  scandir_valid : forall d n, In n (os_scandir w d) -> valid_name n = true;
  scandir_nodup : forall d, List.NoDup (os_scandir w d)
}.

(** [pandas.read_csv] opens its argument as a file, which fails on a
    directory ([IsADirectoryError]). *)
Definition read_csv_rejects_dirs {Table : Type} (w : World Table) : Prop :=
  forall p, os_path_isdir w p = true -> exists e, pd_read_csv w p = Raised e.

(** [pd_read_csv] returns a table for the path. *)
Definition parses {Table : Type} (w : World Table) (path : string) : Prop :=
  exists t, pd_read_csv w path = Returned t.

(** The paths handed to [pandas.read_csv], in order. *)
Definition reads (tr : list event) : list string :=
  List.flat_map (fun ev => match ev with EvReadCsv p => [p] | _ => [] end) tr.

(** The dictionary after the loop body ran on [path]. *)
Definition store {Table : Type} (w : World Table)
    (dataframes : gmap string Table) (path : string) : gmap string Table :=
  match pd_read_csv w path with
  | Returned df => <[key_of path := df]> dataframes
  | Raised _ => dataframes
  end.

(** ** Three sentences of the specification, as they are worded *)

Section AsWorded.
Context {Table : Type} (w : World Table).

(** "A directory containing only valid CSV files": every entry has a name
    ending in [.csv] and parses. *)
Definition only_valid_csv_files (folder_path : string) : Prop :=
  forall n, In n (os_scandir w folder_path) ->
    Str.endswith n ".csv" = true /\ parses w (PosixPath.join folder_path n).

(** "The mapping has exactly one entry per file, keyed by the filename
    without its extension and valued by the table parsed from the file". *)
Definition one_entry_per_file (folder_path : string) (m : gmap string Table) : Prop :=
  size m = length (os_scandir w folder_path)
  /\ forall n, In n (os_scandir w folder_path) ->
       exists t, pd_read_csv w (PosixPath.join folder_path n) = Returned t
                 /\ m !! strip_final_dot n = Some t.

(** "The entries processed are exactly the entries directly inside
    [folder_path] whose name ends with [.csv]". *)
Definition processes_every_csv_suffix_entry (folder_path : string) : Prop :=
  forall path,
    In path (reads (fst (call w folder_path)))
    <-> exists n, In n (os_scandir w folder_path)
                  /\ Str.endswith n ".csv" = true
                  /\ path = PosixPath.join folder_path n.

(** "A subdirectory whose name ends in [.csv] is included by the
    enumeration and makes the call fail with the wrapped parse error". *)
Definition csv_named_subdirectory_aborts (folder_path name : string) : Prop :=
  In name (os_scandir w folder_path) ->
  Str.endswith name ".csv" = true ->
  os_path_isdir w (PosixPath.join folder_path name) = true ->
  In (PosixPath.join folder_path name) (Glob.glob w (PosixPath.join folder_path "*.csv"))
  /\ exists e, snd (call w folder_path) = Raised e /\ exc_class e = "RuntimeError".
End AsWorded.

(** ** Sample worlds *)

(** Tables of the samples: named columns, each with its values. *)
Definition Frame : Type := list (string * list Z).

Definition frame_sales : Frame := [("id", [1; 2]); ("amount", [10; 20])].
Definition frame_a : Frame := [("x", [1])].
Definition frame_b : Frame := [("x", [2])].

(** What [pandas.read_csv] raises on unparsable content, on a directory and
    on a missing file. *)
Definition ParserError : PyExc := Exc "ParserError" "Error tokenizing data".
Definition IsADirectoryError (path : string) : PyExc :=
  Exc "IsADirectoryError" ("[Errno 21] Is a directory: '" +:+ path +:+ "'").
Definition NoSuchFile (path : string) : PyExc :=
  Exc "FileNotFoundError" ("[Errno 2] No such file or directory: '" +:+ path +:+ "'").

(** [data/] holds [sales.csv] and [notes.txt]; [empty/] holds nothing;
    there is no [missing/]. *)
Definition w_data : World Frame := {|
  os_path_isdir p := String.eqb p "data" || String.eqb p "data/"
                     || String.eqb p "empty" || String.eqb p "empty/";
  os_scandir d := if String.eqb d "data" then ["sales.csv"; "notes.txt"] else [];
  glob_dirs d := [];
  pd_read_csv p := if String.eqb p "data/sales.csv" then Returned frame_sales
                   else if String.eqb p "data/notes.txt" then Raised ParserError
                   else Raised (NoSuchFile p)
|}.

(** [data/] holds two valid CSV files, [a.csv] and the hidden [.b.csv]. *)
Definition w_hidden : World Frame := {|
  os_path_isdir p := String.eqb p "data";
  os_scandir d := if String.eqb d "data" then ["a.csv"; ".b.csv"] else [];
  glob_dirs d := [];
  pd_read_csv p := if String.eqb p "data/a.csv" then Returned frame_a
                   else if String.eqb p "data/.b.csv" then Returned frame_b
                   else Raised (NoSuchFile p)
|}.

(** [data/] holds [good.csv], the unparsable [bad.csv] and [later.csv]. *)
Definition w_broken : World Frame := {|
  os_path_isdir p := String.eqb p "data";
  os_scandir d := if String.eqb d "data" then ["good.csv"; "bad.csv"; "later.csv"] else [];
  glob_dirs d := [];
  pd_read_csv p := if String.eqb p "data/good.csv" then Returned frame_a
                   else if String.eqb p "data/later.csv" then Returned frame_b
                   else if String.eqb p "data/bad.csv" then Raised ParserError
                   else Raised (NoSuchFile p)
|}.

(** Three sibling directories [d?], [d1] and [d2]; [d1] and [d2] each hold
    an [x.csv], [d?] is empty.  As a pattern, [d?] matches all three. *)
Definition w_magic : World Frame := {|
  os_path_isdir p := String.eqb p "d?" || String.eqb p "d1" || String.eqb p "d2";
  os_scandir d := if String.eqb d "d1" || String.eqb d "d2" then ["x.csv"]
                  else if String.eqb d "." then ["d1"; "d2"; "d?"] else [];
  glob_dirs d := if String.eqb d "d?" then ["d1"; "d2"; "d?"] else [];
  pd_read_csv p := if String.eqb p "d1/x.csv" then Returned frame_a
                   else if String.eqb p "d2/x.csv" then Returned frame_b
                   else Raised (NoSuchFile p)
|}.

(** [data/] holds [a.csv] and a subdirectory named [archive.csv]. *)
Definition w_subdir : World Frame := {|
  os_path_isdir p := String.eqb p "data" || String.eqb p "data/archive.csv";
  os_scandir d := if String.eqb d "data" then ["a.csv"; "archive.csv"] else [];
  glob_dirs d := [];
  pd_read_csv p := if String.eqb p "data/a.csv" then Returned frame_a
                   else if String.eqb p "data/archive.csv" then Raised (IsADirectoryError p)
                   else Raised (NoSuchFile p)
|}.

(** [data/] holds [a.csv] and a hidden subdirectory named [.cache.csv]. *)
Definition w_hidden_subdir : World Frame := {|
  os_path_isdir p := String.eqb p "data" || String.eqb p "data/.cache.csv";
  os_scandir d := if String.eqb d "data" then ["a.csv"; ".cache.csv"] else [];
  glob_dirs d := [];
  pd_read_csv p := if String.eqb p "data/a.csv" then Returned frame_a
                   else if String.eqb p "data/.cache.csv" then Raised (IsADirectoryError p)
                   else Raised (NoSuchFile p)
|}.

(** [data/] holds [a.csv] alone: [w_hidden] without its hidden file. *)
Definition w_plain : World Frame := {|
  os_path_isdir p := String.eqb p "data";
  os_scandir d := if String.eqb d "data" then ["a.csv"] else [];
  glob_dirs d := [];
  pd_read_csv p := pd_read_csv w_hidden p
|}.

(** [data/] holds [a.csv] and [b.csv], listed in this order. *)
Definition w_two : World Frame := {|
  os_path_isdir p := String.eqb p "data";
  os_scandir d := if String.eqb d "data" then ["a.csv"; "b.csv"] else [];
  glob_dirs d := [];
  pd_read_csv p := if String.eqb p "data/a.csv" then Returned frame_a
                   else if String.eqb p "data/b.csv" then Returned frame_b
                   else Raised (NoSuchFile p)
|}.

(** The same directory, listed in the other order. *)
Definition w_two_rev : World Frame := {|
  os_path_isdir p := String.eqb p "data";
  os_scandir d := if String.eqb d "data" then ["b.csv"; "a.csv"] else [];
  glob_dirs d := [];
  pd_read_csv p := pd_read_csv w_two p
|}.

(** [data/] holds the hidden [.b.csv], [LOG.CSV] and [notes.txt]. *)
Definition w_only_hidden : World Frame := {|
  os_path_isdir p := String.eqb p "data";
  os_scandir d := if String.eqb d "data" then [".b.csv"; "LOG.CSV"; "notes.txt"] else [];
  glob_dirs d := [];
  pd_read_csv p := if String.eqb p "data/.b.csv" then Returned frame_b
                   else if String.eqb p "data/LOG.CSV" then Returned frame_a
                   else Raised ParserError
|}.

(** ** Sanity checks of the path functions *)

Example join_plain : PosixPath.join "data" "*.csv" = "data/*.csv".
Proof. reflexivity. Qed.

Example join_trailing_sep : PosixPath.join "data/" "*.csv" = "data/*.csv".
Proof. reflexivity. Qed.

Example split_pattern : PosixPath.split "data/*.csv" = ("data", "*.csv").
Proof. reflexivity. Qed.

Example split_root : PosixPath.split "/*.csv" = ("/", "*.csv").
Proof. reflexivity. Qed.

Example basename_vendas : PosixPath.basename "dados/vendas.csv" = "vendas.csv".
Proof. reflexivity. Qed.

Example splitext_vendas : PosixPath.splitext "vendas.csv" = ("vendas", ".csv").
Proof. reflexivity. Qed.

Example splitext_two_dots : PosixPath.splitext "a.b.csv" = ("a.b", ".csv").
Proof. reflexivity. Qed.

Example splitext_leading_dot : PosixPath.splitext ".csv" = (".csv", "").
Proof. reflexivity. Qed.

Example splitext_leading_dots : PosixPath.splitext "...csv" = ("...csv", "").
Proof. reflexivity. Qed.

Example key_of_vendas : key_of "dados/vendas.csv" = "vendas".
Proof. reflexivity. Qed.

Example key_of_two_dots : key_of "dados/a.b.csv" = "a.b".
Proof. reflexivity. Qed.

Example strip_final_dot_two_dots : strip_final_dot "a.b.csv" = "a.b".
Proof. reflexivity. Qed.

(** The scenario of the specification: [data/] holds [sales.csv] and
    [notes.txt]; the mapping returned has the single key [sales]. *)
Example scenario_data :
  call w_data "data/"
  = ([EvIsDir "data/"; EvGlob "data/*.csv"; EvReadCsv "data/sales.csv"],
     Returned {[ "sales" := frame_sales ]}).
Proof. vm_compute. reflexivity. Qed.

(** ** Facts about the string primitives *)

Lemma str_app_nil_l (s : string) : "" +:+ s = s.
Proof. reflexivity. Qed.

Lemma str_app_cons (a : ascii) (s t : string) : String a s +:+ t = String a (s +:+ t).
Proof. reflexivity. Qed.

Ltac str_simpl := simpl; rewrite ?str_app_cons, ?str_app_nil_l; simpl.

Lemma str_app_nil_r (s : string) : s +:+ "" = s.
Proof. induction s as [|a s IH]; str_simpl; [reflexivity | now rewrite IH]. Qed.

Lemma str_app_assoc (s t u : string) : (s +:+ t) +:+ u = s +:+ t +:+ u.
Proof. induction s as [|a s IH]; str_simpl; [reflexivity | now rewrite IH]. Qed.

Lemma str_length_app (s t : string) :
  String.length (s +:+ t) = (String.length s + String.length t)%nat.
Proof. induction s as [|a s IH]; str_simpl; [reflexivity | now rewrite IH]. Qed.

Lemma take_drop (n : nat) (s : string) : Str.take n s +:+ Str.drop n s = s.
Proof.
  revert s; induction n as [|n IH]; intros [|a s]; str_simpl; try reflexivity.
  now rewrite IH.
Qed.

Lemma take_app_length (pre t : string) : Str.take (String.length pre) (pre +:+ t) = pre.
Proof. induction pre as [|a pre IH]; str_simpl; [now destruct t | now rewrite IH]. Qed.

Lemma drop_app_length (pre t : string) : Str.drop (String.length pre) (pre +:+ t) = t.
Proof. induction pre as [|a pre IH]; str_simpl; [reflexivity | exact IH]. Qed.

Lemma contains_app (c : ascii) (s t : string) :
  Str.contains c (s +:+ t) = Str.contains c s || Str.contains c t.
Proof.
  induction s as [|a s IH]; str_simpl; [reflexivity |].
  now rewrite IH, orb_assoc.
Qed.

Lemma rfind_ge (c : ascii) (s : string) : -1 <= Str.rfind c s.
Proof.
  induction s as [|a s IH]; simpl; [lia |].
  destruct (Z.leb_spec 0 (Str.rfind c s)); [lia |].
  destruct (Ascii.eqb a c); lia.
Qed.

Lemma rfind_absent (c : ascii) (s : string) :
  Str.contains c s = false -> Str.rfind c s = -1.
Proof.
  induction s as [|a s IH]; simpl; [reflexivity |].
  intros [Ha Hs]%orb_false_elim. rewrite (IH Hs), Ha. reflexivity.
Qed.

(** The last occurrence: after it, no [c]. *)
Lemma rfind_last (c : ascii) (pre t : string) :
  Str.contains c t = false ->
  Str.rfind c (pre +:+ String c t) = Z.of_nat (String.length pre).
Proof.
  intros Ht. induction pre as [|a pre IH]; str_simpl.
  - rewrite (rfind_absent _ _ Ht). simpl. now rewrite Ascii.eqb_refl.
  - rewrite IH. destruct (Z.leb_spec 0 (Z.of_nat (String.length pre))); lia.
Qed.

Lemma endswith_app (pre suf : string) : Str.endswith (pre +:+ suf) suf = true.
Proof.
  unfold Str.endswith. rewrite str_length_app.
  replace (String.length pre + String.length suf - String.length suf)%nat
    with (String.length pre) by lia.
  rewrite drop_app_length, String.eqb_refl, andb_true_r.
  apply Nat.leb_le. lia.
Qed.

Lemma endswith_inv (s suf : string) :
  Str.endswith s suf = true -> exists pre, s = pre +:+ suf.
Proof.
  unfold Str.endswith. intros [_ H%String.eqb_eq]%andb_prop.
  remember (String.length s - String.length suf)%nat as n eqn:Hn.
  exists (Str.take n s). rewrite <- H. symmetry. apply take_drop.
Qed.

Lemma strip_final_dot_last (pre t : string) :
  Str.contains "."%char t = false -> strip_final_dot (pre +:+ String "."%char t) = pre.
Proof.
  intros Ht. induction pre as [|a pre IH]; str_simpl.
  - now rewrite Ht.
  - rewrite contains_app. simpl. rewrite orb_true_r, IH. reflexivity.
Qed.

(** ** Facts about the path functions *)

Lemma startswith_absent (c : ascii) (s : string) :
  Str.contains c s = false -> Str.startswith s c = false.
Proof. destruct s as [|a s]; simpl; [reflexivity |]. now intros [Ha _]%orb_false_elim. Qed.

Lemma valid_name_no_sep (n : string) :
  valid_name n = true -> Str.contains PosixPath.sep n = false.
Proof. unfold valid_name. intros [_ H]%andb_prop. now apply negb_true_iff. Qed.

Lemma basename_plain (n : string) :
  Str.contains PosixPath.sep n = false -> PosixPath.basename n = n.
Proof. intros H. unfold PosixPath.basename. now rewrite (rfind_absent _ _ H). Qed.

Lemma basename_after_sep (pre n : string) :
  Str.contains PosixPath.sep n = false ->
  PosixPath.basename (pre +:+ String PosixPath.sep n) = n.
Proof.
  intros H. unfold PosixPath.basename. rewrite (rfind_last _ _ _ H).
  replace (Z.to_nat (Z.of_nat (String.length pre) + 1))
    with (String.length (pre +:+ "/")) by (rewrite str_length_app; simpl; lia).
  change (String PosixPath.sep n) with ("/" +:+ n).
  rewrite <- str_app_assoc. apply drop_app_length.
Qed.

(** [os.path.join(d, n)] for a name [n] without separator. *)
Lemma join_name (d n : string) :
  Str.contains PosixPath.sep n = false ->
  PosixPath.join d n = n /\ d = ""
  \/ exists pre, PosixPath.join d n = pre +:+ String PosixPath.sep n
                 /\ (d = pre +:+ "/" \/ d = pre).
Proof.
  intros H. unfold PosixPath.join. rewrite (startswith_absent _ _ H).
  destruct (String.eqb_spec d "") as [-> | Hd]; simpl; [now left |].
  right. destruct (Str.endswith d "/") eqn:He.
  - apply endswith_inv in He as [pre ->]. exists pre.
    rewrite str_app_assoc. split; [reflexivity | now left].
  - exists d. split; [reflexivity | now right].
Qed.

Lemma basename_join (d n : string) :
  valid_name n = true -> PosixPath.basename (PosixPath.join d n) = n.
Proof.
  intros H%valid_name_no_sep.
  destruct (join_name d n H) as [[-> _] | (pre & -> & _)].
  - now apply basename_plain.
  - now apply basename_after_sep.
Qed.

(** [os.path.splitext] on a name that ends in [.csv], has no separator and
    does not start with a dot: the split is at the final dot. *)
Lemma splitext_csv (stem : string) :
  Str.contains PosixPath.sep (stem +:+ ".csv") = false ->
  Str.startswith (stem +:+ ".csv") "."%char = false ->
  PosixPath.splitext (stem +:+ ".csv") = (stem, ".csv").
Proof.
  intros Hsep Hdot. unfold PosixPath.splitext.
  rewrite (rfind_absent _ _ Hsep).
  change (stem +:+ ".csv") with (stem +:+ String PosixPath.extsep "csv") in *.
  rewrite rfind_last by reflexivity.
  destruct stem as [|a stem]; [discriminate Hdot |].
  rewrite Nat2Z.id, take_app_length, drop_app_length.
  destruct (Z.ltb_spec (-1) (Z.of_nat (String.length (String a stem)))) as [_ | Hlt];
    [| simpl in Hlt; lia].
  replace (Z.to_nat (Z.of_nat (String.length (String a stem)) - (-1 + 1)))
    with (S (String.length stem)) by (simpl; lia).
  cbn [PosixPath.splitext_scan]. change (-1 + 1) with 0.
  destruct (Z.ltb_spec 0 (Z.of_nat (String.length (String a stem)))) as [_ | Hlt];
    [| simpl in Hlt; lia].
  str_simpl. simpl in Hdot. unfold PosixPath.extsep. now rewrite Hdot.
Qed.

(** The key of a matched entry. *)
Lemma key_of_csv_entry (d n : string) :
  valid_name n = true ->
  Str.endswith n ".csv" = true ->
  Str.startswith n "."%char = false ->
  key_of (PosixPath.join d n) = strip_final_dot n
  /\ exists stem, n = stem +:+ ".csv" /\ strip_final_dot n = stem.
Proof.
  intros Hv He Hh. unfold key_of. rewrite (basename_join _ _ Hv).
  apply endswith_inv in He as [stem ->].
  rewrite (splitext_csv stem (valid_name_no_sep _ Hv) Hh).
  change (stem +:+ ".csv") with (stem +:+ String "."%char "csv").
  rewrite strip_final_dot_last by reflexivity. eauto.
Qed.

(** ** Facts about [glob] *)

Lemma rstrip_contains (c x : ascii) (s : string) :
  Str.contains x s = false -> Str.contains x (Str.rstrip c s) = false.
Proof.
  induction s as [|a s IH]; simpl; [reflexivity |].
  intros [Ha Hs]%orb_false_elim. specialize (IH Hs).
  destruct (Str.rstrip c s) as [|b r].
  - destruct (Ascii.eqb a c); simpl; [reflexivity | now rewrite Ha].
  - change (Str.contains x (String a (String b r)))
      with (Ascii.eqb a x || Str.contains x (String b r)).
    now rewrite Ha, IH.
Qed.

Lemma rstrip_empty (c : ascii) (s : string) :
  Str.rstrip c s = "" -> Str.all_eq c s = true.
Proof.
  induction s as [|a s IH]; simpl; [reflexivity |].
  destruct (Str.rstrip c s) as [|b r]; [| discriminate].
  destruct (Ascii.eqb a c); [intros _; now apply IH | discriminate].
Qed.

Lemma has_magic_app (s t : string) :
  Glob.has_magic (s +:+ t) = Glob.has_magic s || Glob.has_magic t.
Proof.
  unfold Glob.has_magic. rewrite !contains_app.
  repeat match goal with |- context [Str.contains ?c ?u] =>
    destruct (Str.contains c u); simpl; try reflexivity end.
Qed.

Lemma has_magic_rstrip (c : ascii) (s : string) :
  Glob.has_magic s = false -> Glob.has_magic (Str.rstrip c s) = false.
Proof.
  unfold Glob.has_magic.
  intros [[H1 H2]%orb_false_elim H3]%orb_false_elim.
  now rewrite !rstrip_contains.
Qed.

(** The pattern the loader builds: a head that is empty or ends with the
    separator, then [*.csv]. *)
Lemma join_star_csv (folder_path : string) :
  exists head,
    PosixPath.join folder_path "*.csv" = head +:+ "*.csv"
    /\ (head = "" /\ folder_path = ""
        \/ exists pre, head = pre +:+ "/"
                       /\ (folder_path = head \/ folder_path = pre)).
Proof.
  destruct (join_name folder_path "*.csv" eq_refl) as [[E ->] | (pre & E & Hd)].
  - exists "". split; [exact E | now left].
  - exists (pre +:+ "/"). rewrite E, str_app_assoc. split; [reflexivity |].
    right. exists pre. split; [reflexivity | exact Hd].
Qed.

Lemma split_star_csv (head : string) :
  head = "" \/ (exists pre, head = pre +:+ "/") ->
  PosixPath.split (head +:+ "*.csv")
  = (if negb (String.eqb head "") && negb (Str.all_eq PosixPath.sep head)
     then Str.rstrip PosixPath.sep head else head, "*.csv").
Proof.
  intros H. unfold PosixPath.split.
  assert (Z.to_nat (Str.rfind PosixPath.sep (head +:+ "*.csv") + 1) = String.length head)
    as ->.
  { destruct H as [-> | [pre ->]]; [reflexivity |].
    rewrite str_app_assoc. change ("/" +:+ "*.csv") with (String PosixPath.sep "*.csv").
    rewrite rfind_last by reflexivity. rewrite str_length_app. simpl. lia. }
  rewrite take_app_length, drop_app_length.
  now destruct (negb (String.eqb head "") && negb (Str.all_eq PosixPath.sep head)).
Qed.

(** The last component of the pattern is always [*.csv]: this is the pattern
    [Glob.glob1_star_csv] filters with. *)
Lemma glob_pattern_basename (folder_path : string) :
  snd (PosixPath.split (PosixPath.join folder_path "*.csv")) = "*.csv".
Proof.
  destruct (join_star_csv folder_path) as (head & -> & H).
  rewrite split_star_csv; [reflexivity |].
  destruct H as [[-> _] | (pre & -> & _)]; eauto.
Qed.

Lemma dir_of_facts (folder_path : string) :
  folder_path <> "" ->
  dir_of folder_path <> ""
  /\ (Glob.has_magic folder_path = false -> Glob.has_magic (dir_of folder_path) = false).
Proof.
  intros Hne. unfold dir_of.
  destruct (join_star_csv folder_path) as (head & -> & H).
  destruct H as [[_ ->] | (pre & -> & Hf)]; [congruence |].
  rewrite split_star_csv by eauto. cbn [fst].
  assert (Glob.has_magic folder_path = false -> Glob.has_magic (pre +:+ "/") = false) as Hm.
  { destruct Hf as [-> | ->]; [trivial |].
    intros Hp. now rewrite has_magic_app, Hp. }
  destruct (String.eqb_spec (pre +:+ "/") "") as [E | _]; simpl.
  { destruct pre; discriminate E. }
  destruct (Str.all_eq PosixPath.sep (pre +:+ "/")) eqn:Hall; simpl.
  - split; [destruct pre; discriminate | exact Hm].
  - split.
    + intros E%rstrip_empty. congruence.
    + intros Hp. apply has_magic_rstrip. auto.
Qed.

(** Without magic characters in the folder path, [glob] lists one directory
    and joins its matching names to it. *)
Lemma glob_plain {Table : Type} (w : World Table) (folder_path : string) :
  folder_path <> "" ->
  Glob.has_magic folder_path = false ->
  Glob.glob w (PosixPath.join folder_path "*.csv")
  = List.map (PosixPath.join (dir_of folder_path)) (visible_csv (os_scandir w (dir_of folder_path))).
Proof.
  intros Hne Hm. destruct (dir_of_facts folder_path Hne) as [Hd Hdm].
  specialize (Hdm Hm). unfold Glob.glob, dir_of in *.
  destruct (PosixPath.split (PosixPath.join folder_path "*.csv")) as [dirname base].
  cbn [fst] in *. apply String.eqb_neq in Hd. rewrite Hd, Hdm, andb_false_r.
  cbn [List.flat_map]. rewrite app_nil_r. f_equal.
  unfold Glob.glob1_star_csv, visible_csv.
  induction (os_scandir w dirname) as [|n l IH]; simpl; [reflexivity |].
  unfold Glob.ishidden, Glob.fnmatch_star_csv.
  destruct (Str.startswith n "."%char); simpl.
  - rewrite andb_false_r. exact IH.
  - rewrite andb_true_r. destruct (Str.endswith n ".csv"); [now f_equal | exact IH].
Qed.

(** For a folder path without a trailing separator, the directory listed is
    the folder itself. *)

Lemma endswith_sep_cons (a b : ascii) (s : string) :
  Str.endswith (String a (String b s)) "/" = Str.endswith (String b s) "/".
Proof.
  unfold Str.endswith. cbn [String.length]. 
  replace (S (S (String.length s)) - 1)%nat with (S (String.length s)) by lia.
  replace (S (String.length s) - 1)%nat with (String.length s) by lia.
  cbn [Str.drop]. 
  destruct (String.length s) eqn:E.
  - destruct s; [reflexivity | discriminate].
  - cbn [Str.drop]. reflexivity.
Qed.

Lemma rstrip_cons (c a : ascii) (s : string) :
  Str.rstrip c (String a s)
  = match Str.rstrip c s with
    | EmptyString => if Ascii.eqb a c then EmptyString else String a EmptyString
    | r => String a r
    end.
Proof. reflexivity. Qed.

Lemma rstrip_no_trailing_sep (s : string) :
  s <> "" -> Str.endswith s "/" = false ->
  Str.rstrip PosixPath.sep (s +:+ "/") = s
  /\ Str.all_eq PosixPath.sep (s +:+ "/") = false.
Proof.
  induction s as [|a s IH]; [congruence |]. intros _ He.
  destruct s as [|b s].
  - rewrite str_app_cons, str_app_nil_l. cbn in He |- *. unfold PosixPath.sep.
    destruct (Ascii.eqb a "/"%char); [discriminate He |]. auto.
  - rewrite endswith_sep_cons in He. destruct IH as (IH1 & IH2); [discriminate | exact He |].
    rewrite (str_app_cons a). rewrite rstrip_cons, IH1.
    split; [reflexivity |].
    change (Str.all_eq PosixPath.sep (String a (String b s +:+ "/")))
      with (Ascii.eqb a PosixPath.sep && Str.all_eq PosixPath.sep (String b s +:+ "/")).
    now rewrite IH2, andb_false_r.
Qed.

Lemma dir_of_plain (folder_path : string) :
  folder_path <> "" -> Str.endswith folder_path "/" = false ->
  dir_of folder_path = folder_path.
Proof.
  intros Hne He. unfold dir_of.
  assert (PosixPath.join folder_path "*.csv" = (folder_path +:+ "/") +:+ "*.csv") as ->.
  { unfold PosixPath.join. cbn [Str.startswith PosixPath.sep]. 
    apply String.eqb_neq in Hne. rewrite Hne, He. cbn. now rewrite str_app_assoc. }
  rewrite split_star_csv by eauto. cbn [fst].
  destruct (rstrip_no_trailing_sep _ Hne He) as (H1 & H2).
  rewrite H1, H2. 
  destruct (String.eqb_spec (folder_path +:+ "/") ""); [| reflexivity].
  destruct folder_path; discriminate.
Qed.

Example dir_of_trailing_sep : dir_of "data/" = "data".
Proof. reflexivity. Qed.

Example dir_of_root : dir_of "/" = "/".
Proof. reflexivity. Qed.

(** ** Facts about the loop *)

Section LoopFacts.
Context {Table : Type} (w : World Table).

Lemma for_path_in_step_ok (path : string) (rest : list string)
    (acc : gmap string Table) (tr : list event) (t : Table) :
  pd_read_csv w path = Returned t ->
  for_path_in w (path :: rest) acc tr
  = for_path_in w rest (<[key_of path := t]> acc) (tr ++ [EvReadCsv path])%list.
Proof.
  intros H. unfold key_of. cbn [for_path_in].
  destruct (PosixPath.splitext (PosixPath.basename path)) as [key ext].
  unfold mbind, M_bind, m_bind, try_except, read_csv. now rewrite H.
Qed.

Lemma for_path_in_step_fail (path : string) (rest : list string)
    (acc : gmap string Table) (tr : list event) (e : PyExc) :
  pd_read_csv w path = Raised e ->
  for_path_in w (path :: rest) acc tr
  = ((tr ++ [EvReadCsv path])%list,
     Raised (RuntimeError_from ("Erro ao ler '" +:+ path +:+ "': " +:+ exc_str e) e)).
Proof.
  intros H. cbn [for_path_in].
  destruct (PosixPath.splitext (PosixPath.basename path)) as [key ext].
  unfold mbind, M_bind, m_bind, try_except, read_csv, raise. now rewrite H.
Qed.

Lemma store_ok (acc : gmap string Table) (path : string) (t : Table) :
  pd_read_csv w path = Returned t -> store w acc path = <[key_of path := t]> acc.
Proof. intros H. unfold store. now rewrite H. Qed.

(** Every file parses: the loop returns, having read every path in order. *)
Lemma for_path_in_returns (paths : list string) (acc : gmap string Table) (tr : list event) :
  Forall (parses w) paths ->
  for_path_in w paths acc tr
  = ((tr ++ List.map EvReadCsv paths)%list, Returned (foldl (store w) acc paths)).
Proof.
  intros H. revert acc tr. induction H as [|p l [t Ht] _ IH]; intros acc tr.
  - cbn. now rewrite app_nil_r.
  - rewrite (for_path_in_step_ok _ _ _ _ _ Ht), IH. cbn [List.map foldl].
    rewrite (store_ok _ _ _ Ht), <- app_assoc. reflexivity.
Qed.

(** A file does not parse: the loop stops there and raises. *)
Lemma for_path_in_raises (pre : list string) (p : string) (post : list string)
    (acc : gmap string Table) (tr : list event) (e : PyExc) :
  Forall (parses w) pre ->
  pd_read_csv w p = Raised e ->
  for_path_in w (pre ++ p :: post) acc tr
  = ((tr ++ List.map EvReadCsv (pre ++ [p]))%list,
     Raised (RuntimeError_from ("Erro ao ler '" +:+ p +:+ "': " +:+ exc_str e) e)).
Proof.
  intros H He. revert acc tr. induction H as [|q l [t Ht] _ IH]; intros acc tr.
  - cbn [app List.map]. now apply for_path_in_step_fail.
  - rewrite <- !app_comm_cons, (for_path_in_step_ok _ _ _ _ _ Ht), IH.
    cbn [List.map]. now rewrite <- app_assoc.
Qed.

(** Either every path parses or there is a first one that does not. *)
Lemma first_failure (paths : list string) :
  Forall (parses w) paths
  \/ exists pre p post e,
       paths = (pre ++ p :: post)%list /\ Forall (parses w) pre
       /\ pd_read_csv w p = Raised e.
Proof.
  induction paths as [|p l IH]; [left; constructor |].
  destruct (pd_read_csv w p) as [t | e] eqn:Hp.
  - destruct IH as [IH | (pre & q & post & e & -> & Hpre & Hq)].
    + left. constructor; [now exists t | exact IH].
    + right. exists (p :: pre), q, post, e. repeat split; [| exact Hq].
      constructor; [now exists t | exact Hpre].
  - right. exists [], p, l, e. repeat split; [constructor | exact Hp].
Qed.

(** Paths with other keys leave the entry of a key as it was. *)
Lemma lookup_foldl_store_other (k : string) (l : list string) (acc : gmap string Table) :
  Forall (fun r => key_of r <> k) l ->
  foldl (store w) acc l !! k = acc !! k.
Proof.
  intros H. revert acc. induction H as [|r l Hr _ IH]; intros acc; [reflexivity |].
  cbn [foldl]. rewrite IH. unfold store.
  destruct (pd_read_csv w r); [now rewrite lookup_insert_ne | reflexivity].
Qed.

(** The entry of a key is the table of the last path that derives it. *)
Lemma lookup_foldl_store_last (l1 : list string) (q : string) (l3 : list string)
    (acc : gmap string Table) (t : Table) :
  pd_read_csv w q = Returned t ->
  Forall (fun r => key_of r <> key_of q) l3 ->
  foldl (store w) acc (l1 ++ q :: l3) !! key_of q = Some t.
Proof.
  intros Hq H3. rewrite foldl_app. cbn [foldl].
  rewrite (lookup_foldl_store_other _ _ _ H3), (store_ok _ _ _ Hq).
  apply lookup_insert_eq.
Qed.

(** Every entry comes from a path, or was there before the loop. *)
Lemma lookup_foldl_store_inv (l : list string) (acc : gmap string Table)
    (k : string) (t : Table) :
  foldl (store w) acc l !! k = Some t ->
  acc !! k = Some t
  \/ exists p, In p l /\ key_of p = k /\ pd_read_csv w p = Returned t.
Proof.
  revert acc. induction l as [|p l IH]; intros acc H; [now left |].
  cbn [foldl] in H. apply IH in H as [H | (q & Hq & Hk & Ht)].
  - unfold store in H. destruct (pd_read_csv w p) as [t' | e] eqn:Hp; [| now left].
    apply lookup_insert_Some in H as [[Hk ->] | [_ H]]; [| now left].
    right. exists p. repeat split; [now left | exact Hk | exact Hp].
  - right. exists q. repeat split; [now right | exact Hk | exact Ht].
Qed.

(** With pairwise different keys, every path adds an entry. *)
Lemma size_foldl_store (l : list string) (acc : gmap string Table) :
  Forall (parses w) l ->
  List.NoDup (List.map key_of l) ->
  (forall p, In p l -> acc !! key_of p = None) ->
  size (foldl (store w) acc l) = (size acc + length l)%nat.
Proof.
  intros H. revert acc. induction H as [|p l [t Ht] _ IH]; intros acc Hnd Hacc.
  - cbn. lia.
  - cbn [List.map] in Hnd. apply List.NoDup_cons_iff in Hnd as [Hp Hnd].
    cbn [foldl]. rewrite (store_ok _ _ _ Ht), IH; [| exact Hnd |].
    + rewrite map_size_insert_None by (apply Hacc; now left). cbn [length]. lia.
    + intros q Hq. rewrite lookup_insert_ne; [apply Hacc; now right |].
      intros E. apply Hp. rewrite E. now apply List.in_map.
Qed.

End LoopFacts.

(** ** Facts about a whole call *)

Section CallFacts.
Context {Table : Type} (w : World Table).

Lemma call_not_dir (folder_path : string) :
  os_path_isdir w folder_path = false ->
  call w folder_path
  = ([EvIsDir folder_path],
     Raised (FileNotFoundError ("Pasta não encontrada: '" +:+ folder_path +:+ "'"))).
Proof.
  intros H. unfold call, read_all_csvs, mbind, M_bind, m_bind, isdir, raise.
  rewrite H. reflexivity.
Qed.

Lemma call_no_match (folder_path : string) :
  os_path_isdir w folder_path = true ->
  Glob.glob w (PosixPath.join folder_path "*.csv") = [] ->
  call w folder_path
  = ([EvIsDir folder_path; EvGlob (PosixPath.join folder_path "*.csv")],
     Raised (ValueError ("Nenhum arquivo .csv encontrado em: '" +:+ folder_path +:+ "'"))).
Proof.
  intros H Hg. unfold call, read_all_csvs, mbind, M_bind, m_bind, isdir, glob_glob, raise.
  rewrite H, Hg. reflexivity.
Qed.

Lemma call_loop (folder_path : string) :
  os_path_isdir w folder_path = true ->
  Glob.glob w (PosixPath.join folder_path "*.csv") <> [] ->
  call w folder_path
  = for_path_in w (Glob.glob w (PosixPath.join folder_path "*.csv")) ∅
      [EvIsDir folder_path; EvGlob (PosixPath.join folder_path "*.csv")].
Proof.
  intros H Hg. unfold call, read_all_csvs, mbind, M_bind, m_bind, isdir, glob_glob, raise.
  rewrite H. cbn [negb app].
  now destruct (Glob.glob w (PosixPath.join folder_path "*.csv")).
Qed.

(** A call that returns went through the whole loop. *)
Lemma call_returned (folder_path : string) (m : gmap string Table) :
  snd (call w folder_path) = Returned m ->
  let paths := Glob.glob w (PosixPath.join folder_path "*.csv") in
  os_path_isdir w folder_path = true
  /\ paths <> []
  /\ Forall (parses w) paths
  /\ m = foldl (store w) ∅ paths
  /\ fst (call w folder_path)
     = ([EvIsDir folder_path; EvGlob (PosixPath.join folder_path "*.csv")]
        ++ List.map EvReadCsv paths)%list.
Proof.
  intros H. cbv zeta.
  destruct (os_path_isdir w folder_path) eqn:Hd;
    [| rewrite (call_not_dir _ Hd) in H; discriminate H].
  assert (Glob.glob w (PosixPath.join folder_path "*.csv") <> []) as Hne.
  { intros Hg. rewrite (call_no_match _ Hd Hg) in H. discriminate H. }
  rewrite (call_loop _ Hd Hne) in *.
  destruct (first_failure w (Glob.glob w (PosixPath.join folder_path "*.csv")))
    as [Hall | (pre & q & post & e & E & Hpre & Hq)].
  - rewrite (for_path_in_returns w _ _ _ Hall) in *. cbn [fst snd] in *.
    inversion H. repeat split; try reflexivity; assumption.
  - rewrite E, (for_path_in_raises w _ _ _ _ _ _ Hpre Hq) in H. discriminate H.
Qed.

(** A path [glob] returns is a listed name that ends in [.csv] and is not
    hidden, alone or joined to a directory. *)
Lemma glob_elem (pathname path : string) :
  In path (Glob.glob w pathname) ->
  exists d n,
    In n (os_scandir w d)
    /\ Str.endswith n ".csv" = true
    /\ Str.startswith n "."%char = false
    /\ (path = n \/ exists d', path = PosixPath.join d' n).
Proof.
  assert (forall d n, In n (Glob.glob1_star_csv w d) ->
            In n (os_scandir w d) /\ Str.endswith n ".csv" = true
            /\ Str.startswith n "."%char = false) as H1.
  { intros d n [[Hn Hh%negb_true_iff]%List.filter_In He]%List.filter_In. auto. }
  unfold Glob.glob. destruct (PosixPath.split pathname) as [dirname base].
  destruct (String.eqb dirname "").
  - intros H%H1. exists ".", path. intuition.
  - intros (d & _ & (n & <- & Hn%H1)%List.in_map_iff)%List.in_flat_map.
    exists d, n. intuition eauto.
Qed.

End CallFacts.

(** ** The sample worlds are POSIX worlds *)

Ltac posix_world_tac :=
  constructor;
  [ reflexivity
  | intros d n; cbn;
    repeat match goal with |- context [String.eqb d ?s] => destruct (String.eqb d s) end;
    cbn; intuition (subst; reflexivity)
  | intros d; cbn;
    repeat match goal with |- context [String.eqb d ?s] => destruct (String.eqb d s) end;
    cbn; repeat constructor; cbn; intuition discriminate ].

Lemma w_data_posix : posix_world w_data.
Proof. posix_world_tac. Qed.

Lemma w_hidden_posix : posix_world w_hidden.
Proof. posix_world_tac. Qed.

Lemma w_broken_posix : posix_world w_broken.
Proof. posix_world_tac. Qed.

Lemma w_magic_posix : posix_world w_magic.
Proof. posix_world_tac. Qed.

Lemma w_subdir_posix : posix_world w_subdir.
Proof. posix_world_tac. Qed.

Lemma w_hidden_subdir_posix : posix_world w_hidden_subdir.
Proof. posix_world_tac. Qed.

Ltac rejects_dirs_tac :=
  intros p; cbn;
  repeat match goal with |- context [String.eqb p ?s] =>
    destruct (String.eqb_spec p s); subst; cbn end;
  intros H; try discriminate H; eauto.

Lemma w_subdir_rejects_dirs : read_csv_rejects_dirs w_subdir.
Proof. rejects_dirs_tac. Qed.

Lemma w_hidden_subdir_rejects_dirs : read_csv_rejects_dirs w_hidden_subdir.
Proof. rejects_dirs_tac. Qed.

(** ** The last path that derives a key *)

Lemma last_with_key (k : string) (l : list string) :
  (exists x, In x l /\ key_of x = k) ->
  exists la r lb,
    l = (la ++ r :: lb)%list /\ key_of r = k /\ Forall (fun x => key_of x <> k) lb.
Proof.
  induction l as [|a l IH] using rev_ind; intros (x & Hx & Hk); [destruct Hx |].
  destruct (String.eqb_spec (key_of a) k) as [Ha | Ha].
  - exists l, a, []. repeat split; [exact Ha | constructor].
  - apply in_app_or in Hx as [Hx | [-> | []]]; [| congruence].
    destruct IH as (la & r & lb & -> & Hr & Hlb); [eauto |].
    exists la, r, (lb ++ [a])%list. rewrite <- app_assoc. repeat split; [exact Hr |].
    apply Forall_app. split; [exact Hlb | now constructor].
Qed.

(** After a loop in which every path parsed, a path's key has an entry: the
    table of the last path that derives this key. *)
Lemma lookup_foldl_store_key {Table : Type} (w : World Table)
    (paths : list string) (path : string) :
  Forall (parses w) paths ->
  In path paths ->
  exists la r lb t,
    paths = (la ++ r :: lb)%list
    /\ key_of r = key_of path
    /\ Forall (fun x => key_of x <> key_of path) lb
    /\ pd_read_csv w r = Returned t
    /\ foldl (store w) ∅ paths !! key_of path = Some t.
Proof.
  intros Hall Hin.
  destruct (last_with_key (key_of path) paths) as (la & r & lb & -> & Hr & Hlb); [eauto |].
  apply Forall_app in Hall as [_ Hall]. inversion Hall as [|? ? [t Ht] _]; subst.
  exists la, r, lb, t. repeat split; try assumption.
  rewrite <- Hr in *. now apply lookup_foldl_store_last.
Qed.

(** ** Facts used by several properties *)

Section SharedFacts.
Context {Table : Type} (w : World Table).

(** The call raises at the first path that does not parse. *)
Lemma call_first_failure (folder_path : string)
    (pre : list string) (bad : string) (post : list string) (e : PyExc) :
  os_path_isdir w folder_path = true ->
  Glob.glob w (PosixPath.join folder_path "*.csv") = (pre ++ bad :: post)%list ->
  Forall (parses w) pre ->
  pd_read_csv w bad = Raised e ->
  call w folder_path
  = (([EvIsDir folder_path; EvGlob (PosixPath.join folder_path "*.csv")]
      ++ List.map EvReadCsv (pre ++ [bad]))%list,
     Raised (RuntimeError_from ("Erro ao ler '" +:+ bad +:+ "': " +:+ exc_str e) e)).
Proof.
  intros Hd E Hpre Hbad. rewrite (call_loop w _ Hd).
  - rewrite E. now apply for_path_in_raises.
  - rewrite E. now destruct pre.
Qed.

Lemma reads_trace (folder_path pattern : string) (l : list string) :
  reads ([EvIsDir folder_path; EvGlob pattern] ++ List.map EvReadCsv l)%list = l.
Proof. cbn. induction l as [|p l IH]; cbn; [reflexivity | now rewrite IH]. Qed.

Lemma in_visible_csv (n : string) (names : list string) :
  In n (visible_csv names)
  <-> In n names /\ Str.endswith n ".csv" = true /\ Str.startswith n "."%char = false.
Proof.
  unfold visible_csv. rewrite List.filter_In, andb_true_iff, negb_true_iff. tauto.
Qed.

(** A directory that passed the check has a non-empty path. *)
Lemma isdir_nonempty (folder_path : string) :
  posix_world w -> os_path_isdir w folder_path = true -> folder_path <> "".
Proof. intros Hw Hd ->. rewrite (isdir_empty w Hw) in Hd. discriminate Hd. Qed.

(** Two matched names with the same key are the same name. *)
Lemma strip_final_dot_csv_inj (n n' : string) :
  Str.endswith n ".csv" = true -> Str.endswith n' ".csv" = true ->
  strip_final_dot n = strip_final_dot n' -> n = n'.
Proof.
  intros [stem ->]%endswith_inv [stem' ->]%endswith_inv.
  change ".csv" with (String "."%char "csv").
  rewrite !strip_final_dot_last by reflexivity. now intros ->.
Qed.

Lemma key_of_matched (d n : string) :
  posix_world w -> In n (visible_csv (os_scandir w d)) ->
  key_of (PosixPath.join d n) = strip_final_dot n.
Proof.
  intros Hw (Hn & He & Hh)%in_visible_csv.
  now apply key_of_csv_entry; [apply (scandir_valid w Hw d) | |].
Qed.

(** The keys of the matched entries of one directory are pairwise
    different. *)
Lemma matched_keys_nodup (d : string) :
  posix_world w ->
  List.NoDup (List.map key_of (List.map (PosixPath.join d) (visible_csv (os_scandir w d)))).
Proof.
  intros Hw. rewrite List.map_map.
  rewrite (List.map_ext_in _ strip_final_dot)
    by (intros n Hn; now apply key_of_matched).
  apply List.NoDup_map_NoDup_ForallPairs.
  - intros n n' (_ & He & _)%in_visible_csv (_ & He' & _)%in_visible_csv.
    now apply strip_final_dot_csv_inj.
  - apply List.NoDup_filter, (scandir_nodup w Hw).
Qed.

(** The loop only adds to the trace. *)
Lemma for_path_in_extends (paths : list string) (acc : gmap string Table) (tr : list event) :
  exists tr', fst (for_path_in w paths acc tr) = (tr ++ tr')%list.
Proof.
  destruct (first_failure w paths) as [Hall | (pre & bad & post & e & -> & Hpre & Hbad)].
  - rewrite (for_path_in_returns w _ _ _ Hall). eauto.
  - rewrite (for_path_in_raises w _ _ _ _ _ _ Hpre Hbad). eauto.
Qed.

(** In every call, the directory check is the first library call made. *)
Lemma isdir_is_checked_first (folder_path : string) :
  exists rest, fst (call w folder_path) = EvIsDir folder_path :: rest.
Proof.
  destruct (os_path_isdir w folder_path) eqn:Hd.
  - destruct (Glob.glob w (PosixPath.join folder_path "*.csv")) as [|p l] eqn:Hg.
    + rewrite (call_no_match w _ Hd Hg). eauto.
    + rewrite (call_loop w _ Hd) by (rewrite Hg; discriminate).
      destruct (for_path_in_extends (Glob.glob w (PosixPath.join folder_path "*.csv")) ∅
                  [EvIsDir folder_path; EvGlob (PosixPath.join folder_path "*.csv")])
        as [tr' ->].
      cbn. eauto.
  - rewrite (call_not_dir w _ Hd). eauto.
Qed.

(** A directory without any name ending in [.csv] gives an empty
    enumeration. *)
Lemma glob_empty_without_csv (folder_path : string) :
  posix_world w -> os_path_isdir w folder_path = true ->
  Glob.has_magic folder_path = false ->
  (forall n, In n (os_scandir w (dir_of folder_path)) -> Str.endswith n ".csv" = false) ->
  Glob.glob w (PosixPath.join folder_path "*.csv") = [].
Proof.
  intros Hw Hd Hm Hnone. rewrite (glob_plain w _ (isdir_nonempty _ Hw Hd) Hm).
  destruct (visible_csv (os_scandir w (dir_of folder_path))) as [|n l] eqn:E; [reflexivity |].
  assert (In n (visible_csv (os_scandir w (dir_of folder_path)))) as (Hn & He & _)%in_visible_csv
    by (rewrite E; now left).
  rewrite (Hnone n Hn) in He. discriminate He.
Qed.

End SharedFacts.

(** ** Properties of [read_all_csvs] *)

(** C3.  When [folder_path] is not an existing directory, the call raises
    [FileNotFoundError] (the spec's NotFound) with a message that quotes the
    path, and [os.path.isdir] is the only library call made: nothing is
    enumerated and nothing is parsed before the check. *)
Theorem read_all_csvs_missing_folder {Table : Type} (w : World Table)
    (folder_path : string) :
  os_path_isdir w folder_path = false ->
  call w folder_path
  = ([EvIsDir folder_path],
     Raised (FileNotFoundError ("Pasta não encontrada: '" +:+ folder_path +:+ "'"))).
Proof. apply call_not_dir. Qed.

Lemma read_all_csvs_missing_folder_witness :
  os_path_isdir w_data "missing/" = false
  /\ call w_data "missing/"
     = ([EvIsDir "missing/"],
        Raised (FileNotFoundError "Pasta não encontrada: 'missing/'")).
Proof.
  split; [reflexivity |].
  exact (read_all_csvs_missing_folder w_data "missing/" eq_refl).
Defined.

(** An empty enumeration.  When [folder_path] is a directory and [glob.glob]
    returns no path, the call raises [ValueError] (the spec's InvalidInput)
    with a message saying that no [.csv] file was found at that path; the
    library calls made are [os.path.isdir] and [glob.glob], and
    [pandas.read_csv] is not called.  This says nothing of which
    directories give an empty enumeration. *)
Theorem read_all_csvs_no_csv_found {Table : Type} (w : World Table)
    (folder_path : string) :
  os_path_isdir w folder_path = true ->
  Glob.glob w (PosixPath.join folder_path "*.csv") = [] ->
  call w folder_path
  = ([EvIsDir folder_path; EvGlob (PosixPath.join folder_path "*.csv")],
     Raised (ValueError ("Nenhum arquivo .csv encontrado em: '" +:+ folder_path +:+ "'")))
  /\ reads (fst (call w folder_path)) = [].
Proof.
  intros Hd Hg. rewrite (call_no_match w _ Hd Hg). split; reflexivity.
Qed.

Lemma read_all_csvs_no_csv_found_witness :
  os_path_isdir w_data "empty/" = true
  /\ Glob.glob w_data (PosixPath.join "empty/" "*.csv") = []
  /\ call w_data "empty/"
     = ([EvIsDir "empty/"; EvGlob "empty/*.csv"],
        Raised (ValueError "Nenhum arquivo .csv encontrado em: 'empty/'")).
Proof.
  split; [reflexivity |]. split; [reflexivity |].
  exact (proj1 (read_all_csvs_no_csv_found w_data "empty/" eq_refl eq_refl)).
Defined.

(** C4.  The docstring promises [ValueError] when the folder holds no
    [.csv] file.  The call does not keep the promise on an existing, empty
    directory whose name holds a glob magic character: [d?] is a directory
    without any entry, next to [d1] and [d2] that each hold an [x.csv].
    [folder_path] goes into the pattern as it is, so [glob.glob] reads [d?]
    as a pattern and lists the sibling directories: the call parses their
    files and returns a mapping, and raises no [ValueError]. *)
Theorem empty_directory_with_magic_name_loads_siblings :
  os_path_isdir w_magic "d?" = true
  /\ os_scandir w_magic "d?" = []
  /\ dir_of "d?" = "d?"
  /\ Glob.has_magic "d?" = true
  /\ call w_magic "d?"
     = ([EvIsDir "d?"; EvGlob "d?/*.csv"; EvReadCsv "d1/x.csv"; EvReadCsv "d2/x.csv"],
        Returned {[ "x" := frame_b ]})
  /\ (forall msg, snd (call w_magic "d?") <> Raised (ValueError msg)).
Proof.
  assert (call w_magic "d?"
          = ([EvIsDir "d?"; EvGlob "d?/*.csv"; EvReadCsv "d1/x.csv"; EvReadCsv "d2/x.csv"],
             Returned {[ "x" := frame_b ]})) as Hc by (vm_compute; reflexivity).
  split; [reflexivity |]. split; [reflexivity |]. split; [reflexivity |].
  split; [reflexivity |]. split; [exact Hc |].
  intros msg. rewrite Hc. cbn. discriminate.
Qed.

(** C2.  When [pandas.read_csv] raises on some matched path, the call raises
    [RuntimeError] (the spec's ParseFailure) for the first such path in
    enumeration order: the message quotes that path and the text of the
    exception caught, and the exception caught is chained as the cause.  The
    loop stops there, and the call returns no mapping. *)
Theorem read_all_csvs_parse_failure_aborts {Table : Type} (w : World Table)
    (folder_path path : string) (cause : PyExc) :
  os_path_isdir w folder_path = true ->
  In path (Glob.glob w (PosixPath.join folder_path "*.csv")) ->
  pd_read_csv w path = Raised cause ->
  exists pre bad post e,
    Glob.glob w (PosixPath.join folder_path "*.csv") = (pre ++ bad :: post)%list
    /\ Forall (parses w) pre
    /\ pd_read_csv w bad = Raised e
    /\ call w folder_path
       = (([EvIsDir folder_path; EvGlob (PosixPath.join folder_path "*.csv")]
           ++ List.map EvReadCsv (pre ++ [bad]))%list,
          Raised (RuntimeError_from ("Erro ao ler '" +:+ bad +:+ "': " +:+ exc_str e) e))
    /\ exc_cause (RuntimeError_from ("Erro ao ler '" +:+ bad +:+ "': " +:+ exc_str e) e)
       = Some e
    /\ (forall m, snd (call w folder_path) <> Returned m).
Proof.
  intros Hd Hin Hp.
  destruct (first_failure w (Glob.glob w (PosixPath.join folder_path "*.csv")))
    as [Hall | (pre & bad & post & e & E & Hpre & Hbad)].
  - rewrite Forall_forall in Hall. destruct (Hall path) as [t Ht].
    + now apply list_elem_of_In.
    + congruence.
  - exists pre, bad, post, e.
    pose proof (call_first_failure w _ _ _ _ _ Hd E Hpre Hbad) as Hc.
    rewrite Hc. repeat split; try assumption. intros m. cbn. discriminate.
Qed.

Lemma read_all_csvs_parse_failure_aborts_witness :
  exists pre bad post e,
    Glob.glob w_broken (PosixPath.join "data" "*.csv") = (pre ++ bad :: post)%list
    /\ Forall (parses w_broken) pre
    /\ pd_read_csv w_broken bad = Raised e
    /\ call w_broken "data"
       = (([EvIsDir "data"; EvGlob (PosixPath.join "data" "*.csv")]
           ++ List.map EvReadCsv (pre ++ [bad]))%list,
          Raised (RuntimeError_from ("Erro ao ler '" +:+ bad +:+ "': " +:+ exc_str e) e))
    /\ exc_cause (RuntimeError_from ("Erro ao ler '" +:+ bad +:+ "': " +:+ exc_str e) e)
       = Some e
    /\ (forall m, snd (call w_broken "data") <> Returned m).
Proof.
  apply (read_all_csvs_parse_failure_aborts w_broken "data" "data/bad.csv" ParserError).
  - reflexivity.
  - vm_compute. right. left. reflexivity.
  - reflexivity.
Defined.

(** C9.  A call that returns gives a mapping with at least one key: the
    zero-match case raises before the loop, and every iteration of the loop
    that does not raise inserts an entry. *)
Theorem read_all_csvs_result_nonempty {Table : Type} (w : World Table)
    (folder_path : string) (m : gmap string Table) :
  snd (call w folder_path) = Returned m ->
  m <> ∅ /\ exists k t, m !! k = Some t.
Proof.
  intros (_ & Hne & Hall & -> & _)%call_returned.
  destruct (exists_last Hne) as (l & q & E).
  assert (exists k t, foldl (store w) ∅ (Glob.glob w (PosixPath.join folder_path "*.csv"))
                      !! k = Some t) as (k & t & H).
  { rewrite E in *. apply Forall_app in Hall as [_ Hq].
    inversion Hq as [|? ? [t Ht] _]; subst.
    exists (key_of q), t. apply lookup_foldl_store_last; [exact Ht | constructor]. }
  split; [| eauto]. intros Hm. rewrite Hm, lookup_empty in H. discriminate H.
Qed.

Lemma read_all_csvs_result_nonempty_witness :
  snd (call w_data "data") = Returned {[ "sales" := frame_sales ]}
  /\ ({[ "sales" := frame_sales ]} : gmap string Frame) <> ∅.
Proof.
  split; [vm_compute; reflexivity |].
  apply (read_all_csvs_result_nonempty w_data "data"). vm_compute. reflexivity.
Defined.



(** C7.  When two matched paths derive the same key, the mapping returned
    has, under that key, the table of the last path in enumeration order
    that derives it (each insertion overwrites the entry before it): this is
    the later path of the pair whenever no path after it derives the key
    again, and never depends on the earlier one. *)
Theorem read_all_csvs_last_write_wins {Table : Type} (w : World Table)
    (folder_path : string) (m : gmap string Table)
    (l1 : list string) (p : string) (l2 : list string) (q : string) (l3 : list string) :
  snd (call w folder_path) = Returned m ->
  Glob.glob w (PosixPath.join folder_path "*.csv") = (l1 ++ p :: l2 ++ q :: l3)%list ->
  key_of p = key_of q ->
  exists la r lb t,
    (q :: l3 = la ++ r :: lb)%list
    /\ key_of r = key_of q
    /\ Forall (fun x => key_of x <> key_of q) lb
    /\ pd_read_csv w r = Returned t
    /\ m !! key_of q = Some t
    /\ (Forall (fun x => key_of x <> key_of q) l3 -> la = [] /\ r = q).
Proof.
  intros (_ & _ & Hall & -> & _)%call_returned E _. rewrite E in *.
  destruct (last_with_key (key_of q) (q :: l3)) as (la & r & lb & Eq & Hr & Hlb).
  { exists q. split; [now left | reflexivity]. }
  assert (parses w r) as [t Ht].
  { rewrite Forall_forall in Hall. apply Hall, list_elem_of_In.
    apply in_or_app. right. right. apply in_or_app. right.
    rewrite Eq. apply in_or_app. right. now left. }
  exists la, r, lb, t. repeat split; try assumption.
  - replace (l1 ++ p :: l2 ++ q :: l3)%list with ((l1 ++ p :: l2 ++ la) ++ r :: lb)%list.
    + rewrite <- Hr. apply lookup_foldl_store_last; [exact Ht | now rewrite Hr].
    + rewrite Eq, <- !app_assoc. cbn. now rewrite <- !app_assoc.
  - destruct la as [|a la]; [reflexivity |].
    cbn in Eq. inversion Eq; subst. rewrite Forall_forall in H.
    exfalso. apply (H r); [| exact Hr]. apply list_elem_of_In, in_or_app. right. now left.
  - destruct la as [|a la]; [cbn in Eq; congruence |].
    cbn in Eq. inversion Eq; subst. rewrite Forall_forall in H.
    exfalso. apply (H r); [| exact Hr]. apply list_elem_of_In, in_or_app. right. now left.
Qed.

Lemma read_all_csvs_last_write_wins_witness :
  snd (call w_magic "d?") = Returned {[ "x" := frame_b ]}
  /\ Glob.glob w_magic (PosixPath.join "d?" "*.csv") = ["d1/x.csv"; "d2/x.csv"]
  /\ key_of "d1/x.csv" = key_of "d2/x.csv"
  /\ exists la r lb t,
       (["d2/x.csv"] = la ++ r :: lb)%list
       /\ key_of r = key_of "d2/x.csv"
       /\ Forall (fun x => key_of x <> key_of "d2/x.csv") lb
       /\ pd_read_csv w_magic r = Returned t
       /\ ({[ "x" := frame_b ]} : gmap string Frame) !! key_of "d2/x.csv" = Some t
       /\ (Forall (fun x => key_of x <> key_of "d2/x.csv") [] -> la = [] /\ r = "d2/x.csv").
Proof.
  split; [vm_compute; reflexivity |]. split; [reflexivity |]. split; [reflexivity |].
  apply (read_all_csvs_last_write_wins w_magic "d?" _ [] "d1/x.csv" [] "d2/x.csv" []).
  - vm_compute. reflexivity.
  - reflexivity.
  - reflexivity.
Defined.

(** C1, as worded, fails on a hidden file: [data/] holds only the valid CSV
    files [a.csv] and [.b.csv], with different base names, and the mapping
    returned has one entry, not two. *)
Lemma hidden_csv_file_gets_no_entry :
  only_valid_csv_files w_hidden "data"
  /\ List.NoDup (List.map strip_final_dot (os_scandir w_hidden "data"))
  /\ ~ exists m, snd (call w_hidden "data") = Returned m
                 /\ one_entry_per_file w_hidden "data" m.
Proof.
  split; [| split].
  - intros n [<- | [<- | []]]; (split; [reflexivity |]).
    + now exists frame_a.
    + now exists frame_b.
  - cbn. repeat constructor; cbn; intuition discriminate.
  - intros (m & Hm & Hsize & _). vm_compute in Hm. inversion Hm; subst m.
    vm_compute in Hsize. discriminate Hsize.
Qed.

(** C1, amended.  For a [folder_path] without glob magic characters that is
    a directory with at least one entry whose name ends in [.csv] and does
    not start with a dot, all such entries parsing: the call returns a
    mapping with exactly one entry per such entry, keyed by the name without
    its extension and valued by the table parsed from that file, and with no
    other entry. *)
Theorem read_all_csvs_one_entry_per_visible_csv {Table : Type} (w : World Table)
    (folder_path : string) :
  posix_world w ->
  os_path_isdir w folder_path = true ->
  Glob.has_magic folder_path = false ->
  visible_csv (os_scandir w (dir_of folder_path)) <> [] ->
  (forall n, In n (visible_csv (os_scandir w (dir_of folder_path))) ->
     parses w (PosixPath.join (dir_of folder_path) n)) ->
  exists m,
    snd (call w folder_path) = Returned m
    /\ size m = length (visible_csv (os_scandir w (dir_of folder_path)))
    /\ (forall n, In n (visible_csv (os_scandir w (dir_of folder_path))) ->
          exists t, pd_read_csv w (PosixPath.join (dir_of folder_path) n) = Returned t
                    /\ m !! strip_final_dot n = Some t)
    /\ (forall k t, m !! k = Some t ->
          exists n, In n (visible_csv (os_scandir w (dir_of folder_path)))
                    /\ k = strip_final_dot n
                    /\ pd_read_csv w (PosixPath.join (dir_of folder_path) n) = Returned t).
Proof.
  intros Hw Hd Hm Hne Hparse.
  pose proof (glob_plain w _ (isdir_nonempty w _ Hw Hd) Hm) as Hg.
  set (d := dir_of folder_path) in *. set (names := visible_csv (os_scandir w d)) in *.
  assert (Forall (parses w) (List.map (PosixPath.join d) names)) as Hall.
  { apply Forall_forall. intros p (n & <- & Hn)%list_elem_of_In%List.in_map_iff. auto. }
  exists (foldl (store w) ∅ (List.map (PosixPath.join d) names)). split; [| split; [| split]].
  - rewrite (call_loop w _ Hd); rewrite Hg; [| now destruct names].
    now rewrite (for_path_in_returns w _ _ _ Hall).
  - rewrite (size_foldl_store w _ _ Hall (matched_keys_nodup w d Hw)).
    + now rewrite map_size_empty, List.length_map.
    + intros p _. apply lookup_empty.
  - intros n Hn.
    destruct (lookup_foldl_store_key w _ (PosixPath.join d n) Hall)
      as (la & r & lb & t & E & Hr & _ & Ht & Hlook); [now apply List.in_map |].
    assert (In r (List.map (PosixPath.join d) names)) as (n' & <- & Hn')%List.in_map_iff
      by (rewrite E; apply in_or_app; right; now left).
    rewrite (key_of_matched w d n Hw Hn) in Hr, Hlook.
    rewrite (key_of_matched w d n' Hw Hn') in Hr.
    pose proof (proj1 (in_visible_csv n _) Hn) as (_ & He & _).
    pose proof (proj1 (in_visible_csv n' _) Hn') as (_ & He' & _).
    assert (n' = n) as -> by (now apply strip_final_dot_csv_inj).
    eauto.
  - intros k t [H | (p & (n & <- & Hn)%List.in_map_iff & Hk & Ht)]%lookup_foldl_store_inv.
    + rewrite lookup_empty in H. discriminate H.
    + exists n. rewrite (key_of_matched w d) in Hk by assumption. auto.
Qed.

Lemma read_all_csvs_one_entry_per_visible_csv_witness :
  exists m,
    snd (call w_data "data/") = Returned m
    /\ size m = length (visible_csv (os_scandir w_data (dir_of "data/")))
    /\ (forall n, In n (visible_csv (os_scandir w_data (dir_of "data/"))) ->
          exists t, pd_read_csv w_data (PosixPath.join (dir_of "data/") n) = Returned t
                    /\ m !! strip_final_dot n = Some t)
    /\ (forall k t, m !! k = Some t ->
          exists n, In n (visible_csv (os_scandir w_data (dir_of "data/")))
                    /\ k = strip_final_dot n
                    /\ pd_read_csv w_data (PosixPath.join (dir_of "data/") n) = Returned t).
Proof.
  apply (read_all_csvs_one_entry_per_visible_csv w_data "data/" w_data_posix).
  - reflexivity.
  - reflexivity.
  - vm_compute. discriminate.
  - intros n [<- | []]. now exists frame_sales.
Defined.

(** C5, as worded, fails on a hidden entry: [.b.csv] is directly inside
    [data/] and its name ends with [.csv], yet it is not processed. *)
Lemma hidden_csv_entry_is_not_processed :
  ~ processes_every_csv_suffix_entry w_hidden "data".
Proof.
  intros H. destruct (H "data/.b.csv") as [_ H2].
  assert (In "data/.b.csv" (reads (fst (call w_hidden "data")))) as Hin.
  { apply H2. exists ".b.csv". repeat split. right. now left. }
  vm_compute in Hin. intuition discriminate.
Qed.

(** C5, amended.  For a directory [folder_path] without glob magic
    characters, the paths enumerated are exactly the entries directly inside
    it whose name ends with [.csv] (compared character by character) and
    does not start with a dot, each joined to the directory; the paths
    handed to [pandas.read_csv] are a prefix of this enumeration, and the
    whole of it when the call returns.  Each such path names an entry of the
    directory itself, so nothing inside a subdirectory is processed. *)
Theorem read_all_csvs_processes_visible_csv_entries {Table : Type} (w : World Table)
    (folder_path : string) :
  posix_world w ->
  os_path_isdir w folder_path = true ->
  Glob.has_magic folder_path = false ->
  let d := dir_of folder_path in
  let matched := List.map (PosixPath.join d) (visible_csv (os_scandir w d)) in
  Glob.glob w (PosixPath.join folder_path "*.csv") = matched
  /\ (exists rest, matched = (reads (fst (call w folder_path)) ++ rest)%list)
  /\ (forall m, snd (call w folder_path) = Returned m ->
        reads (fst (call w folder_path)) = matched)
  /\ (forall path, In path matched ->
        exists n, In n (os_scandir w d)
                  /\ Str.endswith n ".csv" = true
                  /\ Str.startswith n "."%char = false
                  /\ path = PosixPath.join d n
                  /\ PosixPath.basename path = n).
Proof.
  intros Hw Hd Hm d matched.
  pose proof (glob_plain w _ (isdir_nonempty w _ Hw Hd) Hm) as Hg.
  fold d in Hg. fold matched in Hg. split; [exact Hg |]. split; [| split].
  - destruct matched as [|p0 l0] eqn:Em.
    + exists []. rewrite (call_no_match w _ Hd Hg). reflexivity.
    + rewrite <- Em in *.
      destruct (first_failure w matched) as [Hall | (pre & bad & post & e & E & Hpre & Hbad)].
      * exists []. rewrite (call_loop w _ Hd), Hg by (rewrite Hg, Em; discriminate).
        rewrite (for_path_in_returns w _ _ _ Hall). cbn [fst].
        now rewrite reads_trace, app_nil_r.
      * exists post. rewrite E in Hg.
        rewrite (call_first_failure w _ _ _ _ _ Hd Hg Hpre Hbad). cbn [fst].
        now rewrite reads_trace, <- app_assoc, E.
  - intros m (_ & _ & _ & _ & ->)%call_returned. now rewrite reads_trace.
  - intros path (n & <- & (Hn & He & Hh)%in_visible_csv)%List.in_map_iff.
    exists n. repeat split; try assumption.
    apply basename_join, (scandir_valid w Hw d n Hn).
Qed.

Lemma read_all_csvs_processes_visible_csv_entries_witness :
  Glob.glob w_hidden (PosixPath.join "data" "*.csv") = ["data/a.csv"]
  /\ reads (fst (call w_hidden "data")) = ["data/a.csv"]
  /\ Glob.glob w_hidden (PosixPath.join "data" "*.csv")
     = List.map (PosixPath.join (dir_of "data"))
         (visible_csv (os_scandir w_hidden (dir_of "data"))).
Proof.
  split; [reflexivity |]. split; [reflexivity |].
  exact (proj1 (read_all_csvs_processes_visible_csv_entries w_hidden "data"
                  w_hidden_posix eq_refl eq_refl)).
Defined.

(** C10, as worded, fails on a hidden subdirectory: [.cache.csv] is a
    subdirectory of [data/] whose name ends in [.csv]; the enumeration skips
    it and the call returns. *)
Lemma hidden_csv_named_subdirectory_is_skipped :
  In ".cache.csv" (os_scandir w_hidden_subdir "data")
  /\ Str.endswith ".cache.csv" ".csv" = true
  /\ os_path_isdir w_hidden_subdir (PosixPath.join "data" ".cache.csv") = true
  /\ snd (call w_hidden_subdir "data") = Returned {[ "a" := frame_a ]}
  /\ ~ csv_named_subdirectory_aborts w_hidden_subdir "data" ".cache.csv".
Proof.
  split; [right; now left |]. split; [reflexivity |]. split; [reflexivity |].
  split; [vm_compute; reflexivity |].
  intros H. destruct H as [_ (e & He & _)]; [right; now left | reflexivity | reflexivity |].
  vm_compute in He. discriminate He.
Qed.

(** C10, amended.  For a directory [folder_path] without glob magic
    characters, a subdirectory whose name ends in [.csv] and does not start
    with a dot is among the paths enumerated, and the call raises the
    [RuntimeError] that wraps what [pandas.read_csv] raised on the first
    path that does not parse: that path is the subdirectory or one
    enumerated before it, and it is the subdirectory itself when every other
    path parses. *)
Theorem visible_csv_named_subdirectory_aborts {Table : Type} (w : World Table)
    (folder_path name : string) :
  posix_world w ->
  read_csv_rejects_dirs w ->
  os_path_isdir w folder_path = true ->
  Glob.has_magic folder_path = false ->
  In name (os_scandir w (dir_of folder_path)) ->
  Str.endswith name ".csv" = true ->
  Str.startswith name "."%char = false ->
  os_path_isdir w (PosixPath.join (dir_of folder_path) name) = true ->
  In (PosixPath.join (dir_of folder_path) name)
     (Glob.glob w (PosixPath.join folder_path "*.csv"))
  /\ exists pre bad post e,
       Glob.glob w (PosixPath.join folder_path "*.csv") = (pre ++ bad :: post)%list
       /\ Forall (parses w) pre
       /\ pd_read_csv w bad = Raised e
       /\ call w folder_path
          = (([EvIsDir folder_path; EvGlob (PosixPath.join folder_path "*.csv")]
              ++ List.map EvReadCsv (pre ++ [bad]))%list,
             Raised (RuntimeError_from ("Erro ao ler '" +:+ bad +:+ "': " +:+ exc_str e) e))
       /\ In (PosixPath.join (dir_of folder_path) name) (bad :: post)
       /\ ((forall p, In p (Glob.glob w (PosixPath.join folder_path "*.csv")) ->
              p <> PosixPath.join (dir_of folder_path) name -> parses w p) ->
           bad = PosixPath.join (dir_of folder_path) name).
Proof.
  intros Hw Hrej Hd Hm Hn He Hh Hsub.
  pose proof (glob_plain w _ (isdir_nonempty w _ Hw Hd) Hm) as Hg.
  set (sub := PosixPath.join (dir_of folder_path) name) in *.
  assert (In sub (Glob.glob w (PosixPath.join folder_path "*.csv"))) as Hin.
  { rewrite Hg. apply List.in_map, in_visible_csv. auto. }
  destruct (Hrej sub Hsub) as [e0 He0].
  split; [exact Hin |].
  destruct (first_failure w (Glob.glob w (PosixPath.join folder_path "*.csv")))
    as [Hall | (pre & bad & post & e & E & Hpre & Hbad)].
  { rewrite Forall_forall in Hall. destruct (Hall sub) as [t Ht]; [| congruence].
    now apply list_elem_of_In. }
  exists pre, bad, post, e.
  assert (~ In sub pre) as Hnot.
  { intros Hp. rewrite Forall_forall in Hpre. destruct (Hpre sub) as [t Ht]; [| congruence].
    now apply list_elem_of_In. }
  repeat split; try assumption.
  - exact (call_first_failure w _ _ _ _ _ Hd E Hpre Hbad).
  - rewrite E in Hin. apply in_app_or in Hin as [Hin | Hin]; [contradiction | exact Hin].
  - intros Hothers. destruct (String.eqb_spec bad sub) as [-> | Hne]; [reflexivity |].
    destruct (Hothers bad) as [t Ht]; [| exact Hne | congruence].
    rewrite E. apply in_or_app. right. now left.
Qed.

Lemma visible_csv_named_subdirectory_aborts_witness :
  In "data/archive.csv" (Glob.glob w_subdir (PosixPath.join "data" "*.csv"))
  /\ call w_subdir "data"
     = ([EvIsDir "data"; EvGlob "data/*.csv"; EvReadCsv "data/a.csv";
         EvReadCsv "data/archive.csv"],
        Raised (RuntimeError_from
                  "Erro ao ler 'data/archive.csv': [Errno 21] Is a directory: 'data/archive.csv'"
                  (IsADirectoryError "data/archive.csv"))).
Proof.
  split; [| reflexivity].
  exact (proj1 (visible_csv_named_subdirectory_aborts w_subdir "data" "archive.csv"
                  w_subdir_posix w_subdir_rejects_dirs eq_refl eq_refl
                  (or_intror (or_introl eq_refl)) eq_refl eq_refl eq_refl)).
Defined.

(** ** Further facts about the loop and the path functions *)

Lemma w_plain_posix : posix_world w_plain.
Proof. posix_world_tac. Qed.

Lemma w_two_posix : posix_world w_two.
Proof. posix_world_tac. Qed.

Lemma w_two_rev_posix : posix_world w_two_rev.
Proof. posix_world_tac. Qed.

Lemma w_only_hidden_posix : posix_world w_only_hidden.
Proof. posix_world_tac. Qed.

(** What the loop returns or raises does not depend on the trace so far. *)
Lemma for_path_in_outcome_trace {Table : Type} (w : World Table)
    (paths : list string) (acc : gmap string Table) (tr tr' : list event) :
  snd (for_path_in w paths acc tr) = snd (for_path_in w paths acc tr').
Proof.
  destruct (first_failure w paths) as [Hall | (pre & bad & post & e & -> & Hpre & Hbad)].
  - now rewrite !(for_path_in_returns w _ _ _ Hall).
  - now rewrite !(for_path_in_raises w _ _ _ _ _ _ Hpre Hbad).
Qed.

(** The loop sees the world through [pandas.read_csv] on its paths only. *)
Lemma for_path_in_ext {Table : Type} (w1 w2 : World Table)
    (paths : list string) (acc : gmap string Table) (tr : list event) :
  (forall p, In p paths -> pd_read_csv w1 p = pd_read_csv w2 p) ->
  for_path_in w1 paths acc tr = for_path_in w2 paths acc tr.
Proof.
  revert acc tr. induction paths as [|p l IH]; intros acc tr H; [reflexivity |].
  assert (pd_read_csv w1 p = pd_read_csv w2 p) as Hp by (apply H; now left).
  destruct (pd_read_csv w2 p) as [t | e] eqn:H2.
  - rewrite (for_path_in_step_ok w1 _ _ _ _ _ Hp), (for_path_in_step_ok w2 _ _ _ _ _ H2).
    apply IH. intros q Hq. apply H. now right.
  - now rewrite (for_path_in_step_fail w1 _ _ _ _ _ Hp), (for_path_in_step_fail w2 _ _ _ _ _ H2).
Qed.

(** The loop adds at most one entry per path. *)
Lemma size_foldl_store_le {Table : Type} (w : World Table)
    (l : list string) (acc : gmap string Table) :
  (size (foldl (store w) acc l) <= size acc + length l)%nat.
Proof.
  revert acc. induction l as [|p l IH]; intros acc; cbn [foldl length]; [lia |].
  etransitivity; [apply IH |]. unfold store.
  destruct (pd_read_csv w p) as [t | e]; [| lia].
  destruct (acc !! key_of p) as [t' |] eqn:Hk.
  - rewrite map_size_insert_Some by eauto. lia.
  - rewrite map_size_insert_None by exact Hk. lia.
Qed.

(** A found index of [rfind] is the position of the last occurrence. *)
Lemma rfind_found (c : ascii) (s : string) :
  0 <= Str.rfind c s ->
  exists pre t,
    s = pre +:+ String c t
    /\ Str.rfind c s = Z.of_nat (String.length pre)
    /\ Str.contains c t = false.
Proof.
  induction s as [|a s IH]; cbn [Str.rfind]; [lia |].
  destruct (Z.leb_spec 0 (Str.rfind c s)) as [Hr | Hr].
  - intros _. destruct (IH Hr) as (pre & t & -> & E & Ht).
    exists (String a pre), t. rewrite E, str_app_cons. cbn [String.length].
    repeat split; [lia | exact Ht].
  - destruct (Ascii.eqb_spec a c) as [-> | Hne]; [intros _ | lia].
    exists "", s. rewrite str_app_nil_l. repeat split.
    destruct (Str.contains c s) eqn:Hc; [| reflexivity].
    exfalso. clear IH. induction s as [|b s IHs]; [discriminate Hc |].
    cbn [Str.rfind Str.contains] in *.
    destruct (Z.leb_spec 0 (Str.rfind c s)) as [H0 | H0]; [pose proof (rfind_ge c s); lia |].
    destruct (Ascii.eqb b c); [lia |]. cbn in Hc. now apply IHs.
Qed.

(** ** Further properties of [read_all_csvs] *)

(** X1.  An exception that leaves [read_all_csvs] is one of three: the
    [FileNotFoundError] of a folder that is not a directory, the
    [ValueError] of an empty enumeration, or a [RuntimeError] whose cause is
    what [pandas.read_csv] raised on an enumerated path.  An exception of
    pandas never leaves the call unwrapped. *)
Theorem read_all_csvs_raises_only_its_three_errors {Table : Type} (w : World Table)
    (folder_path : string) (e : PyExc) :
  snd (call w folder_path) = Raised e ->
  (os_path_isdir w folder_path = false
   /\ e = FileNotFoundError ("Pasta não encontrada: '" +:+ folder_path +:+ "'"))
  \/ (os_path_isdir w folder_path = true
      /\ Glob.glob w (PosixPath.join folder_path "*.csv") = []
      /\ e = ValueError ("Nenhum arquivo .csv encontrado em: '" +:+ folder_path +:+ "'"))
  \/ (os_path_isdir w folder_path = true
      /\ exists bad cause,
           In bad (Glob.glob w (PosixPath.join folder_path "*.csv"))
           /\ pd_read_csv w bad = Raised cause
           /\ e = RuntimeError_from ("Erro ao ler '" +:+ bad +:+ "': " +:+ exc_str cause) cause
           /\ exc_cause e = Some cause).
Proof.
  intros H. destruct (os_path_isdir w folder_path) eqn:Hd.
  - right. destruct (Glob.glob w (PosixPath.join folder_path "*.csv")) as [|p l] eqn:Hg.
    + left. rewrite (call_no_match w _ Hd Hg) in H. inversion H. auto.
    + right. split; [reflexivity |]. rewrite <- Hg in *.
      destruct (first_failure w (Glob.glob w (PosixPath.join folder_path "*.csv")))
        as [Hall | (pre & bad & post & cause & E & Hpre & Hbad)].
      * rewrite (call_loop w _ Hd), (for_path_in_returns w _ _ _ Hall) in H
          by (rewrite Hg; discriminate).
        discriminate H.
      * rewrite (call_first_failure w _ _ _ _ _ Hd E Hpre Hbad) in H. inversion H.
        exists bad, cause. repeat split; [| exact Hbad].
        rewrite E. apply in_or_app. right. now left.
  - left. rewrite (call_not_dir w _ Hd) in H. inversion H. auto.
Qed.

Lemma read_all_csvs_raises_only_its_three_errors_witness :
  snd (call w_broken "data")
  = Raised (RuntimeError_from "Erro ao ler 'data/bad.csv': Error tokenizing data" ParserError)
  /\ exists bad cause,
       In bad (Glob.glob w_broken (PosixPath.join "data" "*.csv"))
       /\ pd_read_csv w_broken bad = Raised cause
       /\ RuntimeError_from "Erro ao ler 'data/bad.csv': Error tokenizing data" ParserError
          = RuntimeError_from ("Erro ao ler '" +:+ bad +:+ "': " +:+ exc_str cause) cause.
Proof.
  split; [reflexivity |].
  destruct (read_all_csvs_raises_only_its_three_errors w_broken "data" _ eq_refl)
    as [[H _] | [(_ & H & _) | (_ & bad & cause & Hin & Hbad & He & _)]].
  - discriminate H.
  - discriminate H.
  - exists bad, cause. auto.
Defined.

(** X2.  The call returns a mapping exactly when the folder is a directory,
    the enumeration is not empty and [pandas.read_csv] returns a table for
    every enumerated path; it has then called [pandas.read_csv] once on each
    enumerated path, in enumeration order. *)
Theorem read_all_csvs_returns_iff {Table : Type} (w : World Table) (folder_path : string) :
  (exists m, snd (call w folder_path) = Returned m)
  <-> os_path_isdir w folder_path = true
      /\ Glob.glob w (PosixPath.join folder_path "*.csv") <> []
      /\ Forall (parses w) (Glob.glob w (PosixPath.join folder_path "*.csv"))
      /\ reads (fst (call w folder_path)) = Glob.glob w (PosixPath.join folder_path "*.csv").
Proof.
  split.
  - intros [m (Hd & Hne & Hall & _ & Htr)%call_returned].
    repeat split; try assumption. rewrite Htr. apply reads_trace.
  - intros (Hd & Hne & Hall & _).
    exists (foldl (store w) ∅ (Glob.glob w (PosixPath.join folder_path "*.csv"))).
    now rewrite (call_loop w _ Hd Hne), (for_path_in_returns w _ _ _ Hall).
Qed.

Lemma for_path_in_trace_shift {Table : Type} (w : World Table)
    (paths : list string) (acc : gmap string Table) (tr : list event) :
  fst (for_path_in w paths acc tr) = (tr ++ fst (for_path_in w paths acc []))%list.
Proof.
  destruct (first_failure w paths) as [Hall | (pre & bad & post & e & -> & Hpre & Hbad)].
  - now rewrite !(for_path_in_returns w _ _ _ Hall).
  - now rewrite !(for_path_in_raises w _ _ _ _ _ _ Hpre Hbad).
Qed.

Lemma join_trailing_separator (folder_path : string) :
  folder_path <> "" -> Str.endswith folder_path "/" = false ->
  PosixPath.join (folder_path +:+ "/") "*.csv" = PosixPath.join folder_path "*.csv".
Proof.
  intros Hne%String.eqb_neq He. unfold PosixPath.join. cbn [Str.startswith PosixPath.sep].
  rewrite Hne, He, endswith_app, orb_true_r. cbn. apply str_app_assoc.
Qed.

(** X3.  A trailing separator on [folder_path] changes neither the pattern
    nor the paths enumerated nor the paths parsed; when something is
    enumerated, the call on [folder_path/] returns the same mapping, or
    raises the same [RuntimeError], as the call on [folder_path]. *)
Theorem trailing_separator_loads_the_same {Table : Type} (w : World Table)
    (folder_path : string) :
  folder_path <> "" ->
  Str.endswith folder_path "/" = false ->
  os_path_isdir w folder_path = true ->
  os_path_isdir w (folder_path +:+ "/") = true ->
  Glob.glob w (PosixPath.join (folder_path +:+ "/") "*.csv")
  = Glob.glob w (PosixPath.join folder_path "*.csv")
  /\ reads (fst (call w (folder_path +:+ "/"))) = reads (fst (call w folder_path))
  /\ (Glob.glob w (PosixPath.join folder_path "*.csv") <> [] ->
      snd (call w (folder_path +:+ "/")) = snd (call w folder_path)).
Proof.
  intros Hne He Hd Hd'. pose proof (join_trailing_separator _ Hne He) as Hj.
  split; [now rewrite Hj |].
  destruct (Glob.glob w (PosixPath.join folder_path "*.csv")) as [|p l] eqn:Hg.
  - split; [| congruence].
    rewrite (call_no_match w _ Hd Hg), (call_no_match w _ Hd') by (now rewrite Hj).
    reflexivity.
  - rewrite (call_loop w _ Hd), (call_loop w _ Hd') by (rewrite ?Hj, Hg; discriminate).
    rewrite Hj, Hg. split.
    + rewrite (for_path_in_trace_shift w _ _ [_; _]).
      rewrite (for_path_in_trace_shift w _ _ [EvIsDir folder_path; _]).
      reflexivity.
    + intros _. apply for_path_in_outcome_trace.
Qed.

Lemma trailing_separator_loads_the_same_witness :
  Glob.glob w_data (PosixPath.join ("data" +:+ "/") "*.csv")
  = Glob.glob w_data (PosixPath.join "data" "*.csv")
  /\ reads (fst (call w_data ("data" +:+ "/"))) = reads (fst (call w_data "data"))
  /\ (Glob.glob w_data (PosixPath.join "data" "*.csv") <> [] ->
      snd (call w_data ("data" +:+ "/")) = snd (call w_data "data")).
Proof.
  apply (trailing_separator_loads_the_same w_data "data").
  - discriminate.
  - reflexivity.
  - reflexivity.
  - reflexivity.
Defined.

(** X4.  Only the entries whose name ends in [.csv] and does not start with
    a dot count: two worlds in which [folder_path] (without glob magic
    characters) is a directory with the same such entries, parsed alike,
    give the same call, call for call and result for result.  Other files
    of the directory, what they hold and what is in any other directory
    make no difference. *)
Theorem other_entries_make_no_difference {Table : Type} (w1 w2 : World Table)
    (folder_path : string) :
  posix_world w1 ->
  os_path_isdir w1 folder_path = true ->
  os_path_isdir w2 folder_path = true ->
  Glob.has_magic folder_path = false ->
  visible_csv (os_scandir w1 (dir_of folder_path))
  = visible_csv (os_scandir w2 (dir_of folder_path)) ->
  (forall n, In n (visible_csv (os_scandir w1 (dir_of folder_path))) ->
     pd_read_csv w1 (PosixPath.join (dir_of folder_path) n)
     = pd_read_csv w2 (PosixPath.join (dir_of folder_path) n)) ->
  call w1 folder_path = call w2 folder_path.
Proof.
  intros Hw Hd1 Hd2 Hm Hvis Hread.
  pose proof (isdir_nonempty w1 _ Hw Hd1) as Hne.
  pose proof (glob_plain w1 _ Hne Hm) as Hg1. pose proof (glob_plain w2 _ Hne Hm) as Hg2.
  rewrite <- Hvis in Hg2.
  destruct (visible_csv (os_scandir w1 (dir_of folder_path))) as [|n l] eqn:E.
  - now rewrite (call_no_match w1 _ Hd1 Hg1), (call_no_match w2 _ Hd2 Hg2).
  - rewrite (call_loop w1 _ Hd1), (call_loop w2 _ Hd2) by (rewrite ?Hg1, ?Hg2; discriminate).
    rewrite Hg1, Hg2. apply for_path_in_ext.
    intros p (n' & <- & Hn')%List.in_map_iff. now apply Hread.
Qed.

Lemma other_entries_make_no_difference_witness :
  os_scandir w_hidden "data" <> os_scandir w_plain "data"
  /\ call w_hidden "data" = call w_plain "data".
Proof.
  split; [discriminate |].
  apply (other_entries_make_no_difference w_hidden w_plain "data" w_hidden_posix).
  - reflexivity.
  - reflexivity.
  - reflexivity.
  - reflexivity.
  - intros n _. reflexivity.
Defined.

(** The call returns when the folder is a directory, something is
    enumerated and every enumerated path parses. *)
Lemma read_all_csvs_returns_iff_aux {Table : Type} (w : World Table) (folder_path : string) :
  os_path_isdir w folder_path = true ->
  Glob.glob w (PosixPath.join folder_path "*.csv") <> [] ->
  Forall (parses w) (Glob.glob w (PosixPath.join folder_path "*.csv")) ->
  exists m, snd (call w folder_path) = Returned m.
Proof.
  intros Hd Hne Hall.
  exists (foldl (store w) ∅ (Glob.glob w (PosixPath.join folder_path "*.csv"))).
  now rewrite (call_loop w _ Hd Hne), (for_path_in_returns w _ _ _ Hall).
Qed.

(** The entries of a mapping returned for a folder without glob magic
    characters: one per matched name. *)
Lemma plain_lookup_iff {Table : Type} (w : World Table) (folder_path : string)
    (m : gmap string Table) :
  posix_world w ->
  Glob.has_magic folder_path = false ->
  snd (call w folder_path) = Returned m ->
  forall k t,
    m !! k = Some t
    <-> exists n, In n (visible_csv (os_scandir w (dir_of folder_path)))
                  /\ k = strip_final_dot n
                  /\ pd_read_csv w (PosixPath.join (dir_of folder_path) n) = Returned t.
Proof.
  intros Hw Hm (Hd & _ & Hall & -> & _)%call_returned k t.
  rewrite (glob_plain w _ (isdir_nonempty w _ Hw Hd) Hm) in *.
  set (d := dir_of folder_path) in *. split.
  - intros [H | (p & (n & <- & Hn)%List.in_map_iff & Hk & Ht)]%lookup_foldl_store_inv.
    + rewrite lookup_empty in H. discriminate H.
    + exists n. rewrite (key_of_matched w d n Hw Hn) in Hk. auto.
  - intros (n & Hn & -> & Ht).
    destruct (lookup_foldl_store_key w _ (PosixPath.join d n) Hall)
      as (la & r & lb & t' & E & Hr & _ & Ht' & Hlook); [now apply List.in_map |].
    assert (In r (List.map (PosixPath.join d) (visible_csv (os_scandir w d))))
      as (n' & <- & Hn')%List.in_map_iff
      by (rewrite E; apply in_or_app; right; now left).
    rewrite (key_of_matched w d n Hw Hn) in Hr, Hlook.
    rewrite (key_of_matched w d n' Hw Hn') in Hr.
    pose proof (proj1 (in_visible_csv n _) Hn) as (_ & He & _).
    pose proof (proj1 (in_visible_csv n' _) Hn') as (_ & He' & _).
    assert (n' = n) as -> by (now apply strip_final_dot_csv_inj).
    congruence.
Qed.

(** X5.  For a folder without glob magic characters, the mapping returned
    does not depend on the order in which the directory is listed: if the
    call returns a mapping, it returns the same mapping in a world that
    lists the same names in another order and parses the matched files
    alike. *)
Theorem listing_order_makes_no_difference {Table : Type} (w1 w2 : World Table)
    (folder_path : string) (m : gmap string Table) :
  posix_world w1 ->
  posix_world w2 ->
  Glob.has_magic folder_path = false ->
  os_path_isdir w2 folder_path = true ->
  Permutation (os_scandir w1 (dir_of folder_path)) (os_scandir w2 (dir_of folder_path)) ->
  (forall n, In n (visible_csv (os_scandir w1 (dir_of folder_path))) ->
     pd_read_csv w1 (PosixPath.join (dir_of folder_path) n)
     = pd_read_csv w2 (PosixPath.join (dir_of folder_path) n)) ->
  snd (call w1 folder_path) = Returned m ->
  snd (call w2 folder_path) = Returned m.
Proof.
  intros Hw1 Hw2 Hm Hd2 Hperm Hread H1.
  pose proof (plain_lookup_iff w1 _ _ Hw1 Hm H1) as L1.
  apply call_returned in H1 as (Hd1 & Hne1 & Hall1 & _ & _).
  rewrite (glob_plain w1 _ (isdir_nonempty w1 _ Hw1 Hd1) Hm) in *.
  set (d := dir_of folder_path) in *.
  assert (forall n, In n (visible_csv (os_scandir w2 d))
                    <-> In n (visible_csv (os_scandir w1 d))) as Hvis.
  { intros n. rewrite !in_visible_csv. split; intros (Hn & H); (split; [| exact H]).
    - eapply Permutation_in; [symmetry; exact Hperm | exact Hn].
    - eapply Permutation_in; [exact Hperm | exact Hn]. }
  assert (exists m2, snd (call w2 folder_path) = Returned m2) as [m2 H2].
  { apply read_all_csvs_returns_iff_aux; [exact Hd2 | |].
    - rewrite (glob_plain w2 _ (isdir_nonempty w2 _ Hw2 Hd2) Hm). fold d.
      destruct (visible_csv (os_scandir w1 d)) as [|n l] eqn:E;
        [exfalso; apply Hne1; rewrite ?E; reflexivity |].
      assert (In n (visible_csv (os_scandir w2 d))) as Hn by (apply Hvis; now left).
      intros E2%List.map_eq_nil. rewrite E2 in Hn. destruct Hn.
    - rewrite (glob_plain w2 _ (isdir_nonempty w2 _ Hw2 Hd2) Hm). fold d.
      apply Forall_forall.
      intros p (n & <- & Hn%Hvis)%list_elem_of_In%List.in_map_iff.
      rewrite Forall_forall in Hall1.
      destruct (Hall1 (PosixPath.join d n)) as [t Ht].
      + apply list_elem_of_In. now apply List.in_map.
      + exists t. now rewrite <- (Hread n Hn). }
  rewrite H2. f_equal. apply map_eq. intros k. apply option_eq. intros t.
  rewrite (L1 k t), (plain_lookup_iff w2 _ _ Hw2 Hm H2 k t). fold d.
  split; intros (n & Hn & Hk & Ht); exists n.
  - pose proof (proj1 (Hvis n) Hn) as Hn1.
    repeat split; [exact Hn1 | exact Hk | now rewrite (Hread n Hn1)].
  - repeat split; [now apply Hvis | exact Hk | now rewrite <- (Hread n Hn)].
Qed.

Lemma listing_order_makes_no_difference_witness :
  reads (fst (call w_two "data")) = ["data/a.csv"; "data/b.csv"]
  /\ reads (fst (call w_two_rev "data")) = ["data/b.csv"; "data/a.csv"]
  /\ snd (call w_two "data") = Returned {[ "a" := frame_a; "b" := frame_b ]}
  /\ snd (call w_two_rev "data") = Returned {[ "a" := frame_a; "b" := frame_b ]}.
Proof.
  split; [reflexivity |]. split; [reflexivity |]. split; [vm_compute; reflexivity |].
  apply (listing_order_makes_no_difference w_two w_two_rev "data" _
           w_two_posix w_two_rev_posix).
  - reflexivity.
  - reflexivity.
  - apply perm_swap.
  - intros n _. reflexivity.
  - vm_compute. reflexivity.
Defined.

(** X6.  Every key of a mapping returned names a file that was parsed: the
    key followed by [.csv] is the base name of an enumerated path, and the
    value under the key is the table [pandas.read_csv] returned for such a
    path.  A key is never empty, never holds a path separator and never
    starts with a dot. *)
Theorem returned_keys_name_parsed_files {Table : Type} (w : World Table)
    (folder_path : string) (m : gmap string Table) (k : string) (t : Table) :
  posix_world w ->
  snd (call w folder_path) = Returned m ->
  m !! k = Some t ->
  (exists path,
     In path (Glob.glob w (PosixPath.join folder_path "*.csv"))
     /\ PosixPath.basename path = k +:+ ".csv"
     /\ pd_read_csv w path = Returned t)
  /\ k <> ""
  /\ Str.contains PosixPath.sep k = false
  /\ Str.startswith k "."%char = false.
Proof.
  intros Hw (_ & _ & _ & -> & _)%call_returned
         [H | (p & Hp & Hk & Ht)]%lookup_foldl_store_inv.
  { rewrite lookup_empty in H. discriminate H. }
  destruct (glob_elem w _ _ Hp) as (d & n & Hn & He & Hh & Hpath).
  pose proof (scandir_valid w Hw d n Hn) as Hv.
  assert (PosixPath.join "" n = n) as Hj.
  { unfold PosixPath.join. now rewrite (startswith_absent _ _ (valid_name_no_sep _ Hv)). }
  assert (PosixPath.basename p = n /\ key_of p = strip_final_dot n) as [Hb Hkey].
  { destruct Hpath as [-> | [d' ->]].
    - split; [apply basename_plain, valid_name_no_sep, Hv |].
      rewrite <- Hj at 1. now apply key_of_csv_entry.
    - split; [now apply basename_join | now apply key_of_csv_entry]. }
  destruct (key_of_csv_entry "" n Hv He Hh) as (_ & stem & -> & Hstem).
  rewrite Hkey, Hstem in Hk. subst stem.
  apply valid_name_no_sep in Hv. rewrite contains_app in Hv.
  apply orb_false_elim in Hv as [Hsep _].
  split; [exists p; auto |]. split; [| split; [exact Hsep |]].
  - intros ->. discriminate Hh.
  - destruct k as [|a k]; [reflexivity | exact Hh].
Qed.

Lemma returned_keys_name_parsed_files_witness :
  (exists path,
     In path (Glob.glob w_data (PosixPath.join "data" "*.csv"))
     /\ PosixPath.basename path = "sales" +:+ ".csv"
     /\ pd_read_csv w_data path = Returned frame_sales)
  /\ "sales" <> ""
  /\ Str.contains PosixPath.sep "sales" = false
  /\ Str.startswith "sales" "."%char = false.
Proof.
  apply (returned_keys_name_parsed_files w_data "data" {[ "sales" := frame_sales ]}
           "sales" frame_sales w_data_posix).
  - vm_compute. reflexivity.
  - vm_compute. reflexivity.
Defined.

(** X7.  A mapping returned has at least one entry and at most as many
    entries as paths were enumerated. *)
Theorem returned_size_bounds {Table : Type} (w : World Table)
    (folder_path : string) (m : gmap string Table) :
  snd (call w folder_path) = Returned m ->
  (1 <= size m <= length (Glob.glob w (PosixPath.join folder_path "*.csv")))%nat.
Proof.
  intros (_ & Hne & Hall & -> & _)%call_returned. split.
  - destruct (exists_last Hne) as (l & q & E). rewrite E in *.
    apply Forall_app in Hall as [_ Hq]. inversion Hq as [|? ? [t Ht] _]; subst.
    rewrite foldl_app. cbn [foldl]. rewrite (store_ok w _ _ _ Ht).
    destruct (foldl (store w) ∅ l !! key_of q) as [t' |] eqn:Hk.
    + rewrite map_size_insert_Some by eauto.
      destruct (size (foldl (store w) ∅ l)) eqn:Hs; [| lia].
      apply map_size_empty_inv in Hs. rewrite Hs, lookup_empty in Hk. discriminate Hk.
    + rewrite map_size_insert_None by exact Hk. lia.
  - pose proof (size_foldl_store_le w (Glob.glob w (PosixPath.join folder_path "*.csv")) ∅)
      as H.
    rewrite map_size_empty in H. exact H.
Qed.

Lemma returned_size_bounds_witness :
  snd (call w_magic "d?") = Returned {[ "x" := frame_b ]}
  /\ size ({[ "x" := frame_b ]} : gmap string Frame) = 1%nat
  /\ length (Glob.glob w_magic (PosixPath.join "d?" "*.csv")) = 2%nat
  /\ (1 <= size ({[ "x" := frame_b ]} : gmap string Frame)
      <= length (Glob.glob w_magic (PosixPath.join "d?" "*.csv")))%nat.
Proof.
  split; [vm_compute; reflexivity |]. split; [reflexivity |]. split; [reflexivity |].
  apply (returned_size_bounds w_magic "d?"). vm_compute. reflexivity.
Defined.

(** X8.  For a directory [folder_path] without glob magic characters, the
    [ValueError] is raised exactly when no entry has a name that ends in
    [.csv] and does not start with a dot: a directory holding only hidden
    [.csv] files, or files with another extension such as [.CSV], counts as
    having no CSV file, and none of its files is parsed. *)
Theorem value_error_iff_no_visible_csv {Table : Type} (w : World Table)
    (folder_path : string) :
  posix_world w ->
  os_path_isdir w folder_path = true ->
  Glob.has_magic folder_path = false ->
  (visible_csv (os_scandir w (dir_of folder_path)) = [] ->
   call w folder_path
   = ([EvIsDir folder_path; EvGlob (PosixPath.join folder_path "*.csv")],
      Raised (ValueError ("Nenhum arquivo .csv encontrado em: '" +:+ folder_path +:+ "'"))))
  /\ (forall msg, snd (call w folder_path) = Raised (ValueError msg) ->
        visible_csv (os_scandir w (dir_of folder_path)) = []).
Proof.
  intros Hw Hd Hm. pose proof (glob_plain w _ (isdir_nonempty w _ Hw Hd) Hm) as Hg. split.
  - intros E. rewrite E in Hg. now apply call_no_match.
  - intros msg H.
    destruct (visible_csv (os_scandir w (dir_of folder_path))) as [|n l]; [reflexivity |].
    exfalso. rewrite (call_loop w _ Hd) in H by (rewrite Hg; discriminate).
    destruct (first_failure w (Glob.glob w (PosixPath.join folder_path "*.csv")))
      as [Hall | (pre & bad & post & e & E & Hpre & Hbad)].
    + rewrite (for_path_in_returns w _ _ _ Hall) in H. discriminate H.
    + rewrite E, (for_path_in_raises w _ _ _ _ _ _ Hpre Hbad) in H. discriminate H.
Qed.

Lemma value_error_iff_no_visible_csv_witness :
  os_scandir w_only_hidden "data" = [".b.csv"; "LOG.CSV"; "notes.txt"]
  /\ call w_only_hidden "data"
     = ([EvIsDir "data"; EvGlob "data/*.csv"],
        Raised (ValueError "Nenhum arquivo .csv encontrado em: 'data'")).
Proof.
  split; [reflexivity |].
  exact (proj1 (value_error_iff_no_visible_csv w_only_hidden "data"
                  w_only_hidden_posix eq_refl eq_refl) eq_refl).
Defined.

Lemma rfind_present (c : ascii) (s : string) :
  Str.contains c s = true -> 0 <= Str.rfind c s.
Proof.
  induction s as [|a s IH]; cbn [Str.contains Str.rfind]; [discriminate |].
  destruct (Z.leb_spec 0 (Str.rfind c s)) as [Hr | Hr]; [lia |].
  destruct (Ascii.eqb a c); [lia |]. cbn. intros H%IH. lia.
Qed.

Lemma rfind_app_found (c : ascii) (pre t : string) :
  0 <= Str.rfind c t ->
  Str.rfind c (pre +:+ t) = Z.of_nat (String.length pre) + Str.rfind c t.
Proof.
  intros Ht. induction pre as [|a pre IH]; [now rewrite str_app_nil_l |].
  rewrite str_app_cons. cbn [Str.rfind String.length]. rewrite IH.
  destruct (Z.leb_spec 0 (Z.of_nat (String.length pre) + Str.rfind c t)); lia.
Qed.

(** X9.  [os.path.splitext] loses nothing and cuts at a dot of the last
    component: the two parts put together are the path, and the extension is
    empty or is a dot followed by characters without dot or separator. *)
Theorem splitext_parts (p : string) :
  fst (PosixPath.splitext p) +:+ snd (PosixPath.splitext p) = p
  /\ (snd (PosixPath.splitext p) = ""
      \/ exists t, snd (PosixPath.splitext p) = String PosixPath.extsep t
                   /\ Str.contains PosixPath.extsep t = false
                   /\ Str.contains PosixPath.sep t = false).
Proof.
  unfold PosixPath.splitext.
  destruct (Z.ltb_spec (Str.rfind PosixPath.sep p) (Str.rfind PosixPath.extsep p))
    as [Hlt | _]; [| split; [apply str_app_nil_r | now left]].
  destruct (PosixPath.splitext_scan _ p _ _);
    [| split; [apply str_app_nil_r | now left]].
  cbn [fst snd]. split; [apply take_drop |]. right.
  pose proof (rfind_ge PosixPath.sep p) as Hsep.
  destruct (rfind_found PosixPath.extsep p) as (pre & t & E & Hdot & Ht); [lia |].
  exists t. rewrite Hdot, Nat2Z.id. rewrite E at 1. rewrite drop_app_length.
  repeat split; [exact Ht |].
  destruct (Str.contains PosixPath.sep t) eqn:Hc; [| reflexivity].
  exfalso. apply rfind_present in Hc.
  assert (0 <= Str.rfind PosixPath.sep (String PosixPath.extsep t)) as H0.
  { cbn [Str.rfind]. destruct (Z.leb_spec 0 (Str.rfind PosixPath.sep t)); lia. }
  pose proof (rfind_app_found PosixPath.sep pre _ H0) as Happ. rewrite <- E in Happ.
  cbn [Str.rfind] in Happ.
  destruct (Z.leb_spec 0 (Str.rfind PosixPath.sep t)) as [_ | Hneg]; lia.
Qed.

(** X10.  [pandas.read_csv] is only called on enumerated paths, in
    enumeration order and without gaps, and only after every earlier path
    parsed: when the folder is not a directory nothing is parsed; otherwise
    the paths parsed are a prefix of the enumeration, and all of them but
    the last returned a table. *)
Theorem parser_calls_follow_the_enumeration {Table : Type} (w : World Table)
    (folder_path : string) :
  (os_path_isdir w folder_path = false -> reads (fst (call w folder_path)) = [])
  /\ (os_path_isdir w folder_path = true ->
      exists rest,
        Glob.glob w (PosixPath.join folder_path "*.csv")
        = (reads (fst (call w folder_path)) ++ rest)%list)
  /\ (forall init last,
        reads (fst (call w folder_path)) = (init ++ [last])%list ->
        Forall (parses w) init).
Proof.
  destruct (os_path_isdir w folder_path) eqn:Hd.
  - destruct (Glob.glob w (PosixPath.join folder_path "*.csv")) as [|p l] eqn:Hg.
    + rewrite (call_no_match w _ Hd Hg). cbn [fst].
      split; [discriminate |]. split; [intros _; now exists [] |].
      intros init last H. now destruct init.
    + rewrite <- Hg. rewrite (call_loop w _ Hd) by (rewrite Hg; discriminate).
      split; [discriminate |].
      destruct (first_failure w (Glob.glob w (PosixPath.join folder_path "*.csv")))
        as [Hall | (pre & bad & post & e & E & Hpre & Hbad)].
      * rewrite (for_path_in_returns w _ _ _ Hall). cbn [fst]. rewrite reads_trace.
        split; [intros _; exists []; now rewrite app_nil_r |].
        intros init last H. rewrite H in Hall. now apply Forall_app in Hall as [Hi _].
      * rewrite E, (for_path_in_raises w _ _ _ _ _ _ Hpre Hbad). cbn [fst].
        rewrite reads_trace.
        split; [intros _; exists post; now rewrite <- app_assoc |].
        intros init last [-> _]%app_inj_tail. exact Hpre.
  - rewrite (call_not_dir w _ Hd). cbn [fst].
    split; [reflexivity |]. split; [discriminate |].
    intros init last H. now destruct init.
Qed.

Lemma parser_calls_follow_the_enumeration_witness :
  reads (fst (call w_broken "data")) = (["data/good.csv"] ++ ["data/bad.csv"])%list
  /\ Glob.glob w_broken (PosixPath.join "data" "*.csv")
     = ["data/good.csv"; "data/bad.csv"; "data/later.csv"]
  /\ Forall (parses w_broken) ["data/good.csv"].
Proof.
  split; [reflexivity |]. split; [reflexivity |].
  exact (proj2 (proj2 (parser_calls_follow_the_enumeration w_broken "data"))
           ["data/good.csv"] "data/bad.csv" eq_refl).
Defined.

Lemma read_all_csvs_returns_iff_witness :
  exists m, snd (call w_two "data") = Returned m.
Proof.
  apply (proj2 (read_all_csvs_returns_iff w_two "data")).
  split; [reflexivity |]. split; [discriminate |]. split; [| reflexivity].
  repeat constructor.
  - now exists frame_a.
  - now exists frame_b.
Defined.
